(** * The HTTP transport client of braintree_python, and BusinessDetails

    A shallow embedding of [braintree/util/http.py] (class [Http]) and of
    [braintree/sub_merchant_account/business_details.py] (class
    [BusinessDetails]), with the properties of the transport layer that the
    specification states: the status-to-error table, the decoding of
    successful responses, the wrapping of transport exceptions, the
    Authorization header, the request body, the request URL and the TLS
    verification setting.

    Python values are an inductive type, dictionaries are stdpp's [gmap],
    [str] and [bytes] are [string]s, and a call that can raise returns an
    [outcome]: the value it returns or the exception it raises. *)

From Stdlib Require Import ZArith String Ascii List Bool Lia DecimalString.
From Stdlib Require DecimalPos DecimalZ.
From stdpp Require Import gmap strings.

Set Warnings "-register-all".

Local Open Scope string_scope.
Local Open Scope Z_scope.

(** ** Python: values, exceptions, outcomes *)

Module Py.

(** A [str] is a sequence of code points and a [bytes] a sequence of bytes.
    Both are [string]s here; a code point is an [ascii], so the text the
    model ranges over has code points below 256, and [encode_ascii] fails
    on those above 127 as [str.encode('ascii')] does. *)
Abbreviation str := string.
Abbreviation bytes := string.

(** The values the transport layer passes around. *)
Inductive value : Type :=
| VNone
| VBool (b : bool)
| VInt (z : Z)
| VStr (s : str)
| VBytes (b : bytes)
| VDict (d : gmap string value)
| VTuple (l : list value)
| VObject (cls : string) (attrs : gmap string value).

(** [bool(v)]: [None], [False], [0] and empty containers are falsy. *)
Definition truthy (v : value) : bool :=
  match v with
  | VNone => false
  | VBool b => b
  | VInt z => negb (z =? 0)
  | VStr s | VBytes s => negb (Nat.eqb (String.length s) 0)
  | VDict d => negb (Nat.eqb (size d) 0)
  | VTuple l => negb (Nat.eqb (List.length l) 0)
  | VObject _ _ => true
  end.

(** [v == None]. *)
Definition is_None (v : value) : bool :=
  match v with VNone => true | _ => false end.

(** A raised Python exception object outside the braintree taxonomy: the
    names of the classes of its type's method resolution order (the type
    itself first), and its message. *)
Record py_exception : Type := PyException {
  exc_mro : list string;
  exc_message : string
}.

(** [isinstance(e, cls)]: [cls] occurs in the MRO of the type of [e]. *)
Definition isinstance (e : py_exception) (cls : string) : bool :=
  existsb (String.eqb cls) (exc_mro e).

Definition builtin_exception (cls : string) (msg : string) : py_exception :=
  PyException [cls; "Exception"; "BaseException"; "object"] msg.

Definition AttributeError := builtin_exception "AttributeError".
Definition UnboundLocalError :=
  PyException
    ["UnboundLocalError"; "NameError"; "Exception"; "BaseException"; "object"].
Definition UnicodeEncodeError :=
  PyException
    ["UnicodeEncodeError"; "UnicodeError"; "ValueError"; "Exception";
     "BaseException"; "object"].
Definition IndexError :=
  PyException
    ["IndexError"; "LookupError"; "Exception"; "BaseException"; "object"].

(** The result of a call: it returns [a] or raises [e]. *)
Inductive outcome (E A : Type) : Type :=
| Return (a : A)
| Raise (e : E).
Arguments Return {E A} a.
Arguments Raise {E A} e.

Definition bind {E A B} (m : outcome E A) (k : A -> outcome E B)
  : outcome E B :=
  match m with
  | Return a => k a
  | Raise e => Raise e
  end.

(** [str(n)] of an integer: decimal digits, with a sign when negative. *)
Definition str_of_int (z : Z) : str :=
  NilZero.string_of_int (Z.to_int z).

(** *** [bytes.strip] *)

(** The bytes that [bytes.strip()] removes: space, [\t], [\n], [\r],
    [\x0b] and [\x0c]. *)
Definition is_space (c : ascii) : bool :=
  match N_of_ascii c with
  | 9%N | 10%N | 11%N | 12%N | 13%N | 32%N => true
  | _ => false
  end.

Fixpoint lstrip (s : bytes) : bytes :=
  match s with
  | EmptyString => EmptyString
  | String c s' => if is_space c then lstrip s' else s
  end.

Fixpoint rstrip (s : bytes) : bytes :=
  match s with
  | EmptyString => EmptyString
  | String c s' =>
      match rstrip s' with
      | EmptyString => if is_space c then EmptyString else String c EmptyString
      | r => String c r
      end
  end.

Definition strip (s : bytes) : bytes := rstrip (lstrip s).

(** [s] is made of whitespace only (the empty [s] included). *)
Fixpoint all_space (s : bytes) : bool :=
  match s with
  | EmptyString => true
  | String c s' => is_space c && all_space s'
  end.

(** *** [str.strip] and the body of a response *)

(** The text of a response is a [str] of any code points: [str.strip]
    removes whitespace that is above the ASCII range, and above 255. The
    model has it as the list of its code points. *)
Abbreviation code_points := (list N).

(** The code points that [str.strip()] removes, those for which
    [str.isspace] holds: U+0009 to U+000D, U+001C to U+0020, U+0085,
    U+00A0, U+1680, U+2000 to U+200A, U+2028, U+2029, U+202F, U+205F and
    U+3000. *)
Definition is_unicode_space (c : N) : bool :=
  ((9 <=? c) && (c <=? 13) || (28 <=? c) && (c <=? 32)
   || (c =? 133) || (c =? 160) || (c =? 5760)
   || (8192 <=? c) && (c <=? 8202)
   || (c =? 8232) || (c =? 8233) || (c =? 8239) || (c =? 8287)
   || (c =? 12288))%N.

Fixpoint text_lstrip (s : code_points) : code_points :=
  match s with
  | [] => []
  | c :: s' => if is_unicode_space c then text_lstrip s' else s
  end.

Fixpoint text_rstrip (s : code_points) : code_points :=
  match s with
  | [] => []
  | c :: s' =>
      match text_rstrip s' with
      | [] => if is_unicode_space c then [] else [c]
      | r => c :: r
      end
  end.

Definition text_strip (s : code_points) : code_points :=
  text_rstrip (text_lstrip s).

Fixpoint text_all_space (s : code_points) : bool :=
  match s with
  | [] => true
  | c :: s' => is_unicode_space c && text_all_space s'
  end.

(** The body of a response as a strategy returns it: the [bytes] of
    [response.content], or the [str] of [response.text]. *)
Inductive payload : Type :=
| Bytes (b : bytes)
| Text (t : code_points).

(** [response_body.strip()] and [len(...)], by the type of the body. *)
Definition payload_strip (p : payload) : payload :=
  match p with
  | Bytes b => Bytes (strip b)
  | Text t => Text (text_strip t)
  end.

Definition payload_len (p : payload) : nat :=
  match p with
  | Bytes b => String.length b
  | Text t => List.length t
  end.

(** The body is empty or whitespace only, for the whitespace of its
    type. *)
Definition blank (p : payload) : bool :=
  match p with
  | Bytes b => all_space b
  | Text t => text_all_space t
  end.

(** *** [startswith], [replace], [encode] *)

(** [s.startswith(p)]. *)
Fixpoint startswith (s p : str) : bool :=
  match p, s with
  | EmptyString, _ => true
  | String _ _, EmptyString => false
  | String a p', String b s' => Ascii.eqb a b && startswith s' p'
  end.

(** [s.replace(old, new)] for a non-empty [old]: the occurrences of [old]
    are replaced from left to right, without overlap. [skip] counts the
    characters of a matched occurrence still to be dropped. *)
Fixpoint replace_from (old new : bytes) (skip : nat) (s : bytes) : bytes :=
  match s with
  | EmptyString => EmptyString
  | String c s' =>
      match skip with
      | S k => replace_from old new k s'
      | O =>
          if startswith s old
          then new ++ replace_from old new (String.length old - 1) s'
          else String c (replace_from old new 0 s')
      end
  end.

Definition replace (s old new : bytes) : bytes := replace_from old new 0 s.

Fixpoint is_ascii (s : str) : bool :=
  match s with
  | EmptyString => true
  | String c s' => (N_of_ascii c <? 128)%N && is_ascii s'
  end.

(** [s.encode('ascii')]: the same bytes, or UnicodeEncodeError at a code
    point above 127. *)
Definition encode_ascii (s : str) : outcome py_exception bytes :=
  if is_ascii s then Return s
  else Raise (UnicodeEncodeError
                "'ascii' codec can't encode character: ordinal not in range(128)").

(** [s[n:]]. *)
Fixpoint drop (n : nat) (s : bytes) : bytes :=
  match n, s with
  | O, _ => s
  | S _, EmptyString => EmptyString
  | S n', String _ s' => drop n' s'
  end.

(** No byte of [s] is whitespace. *)
Fixpoint no_space (s : bytes) : bool :=
  match s with
  | EmptyString => true
  | String c s' => negb (is_space c) && no_space s'
  end.

(** *** [base64.encodebytes] *)

(** The base64 alphabet of RFC 4648. *)
Definition b64_alphabet : bytes :=
  "ABCDEFGHIJKLMNOPQRSTUVWXYZabcdefghijklmnopqrstuvwxyz0123456789+/".

Definition b64_pad : ascii := "="%char.

(** The character of a 6-bit group. *)
Definition b64_char (n : N) : ascii :=
  match String.get (N.to_nat n) b64_alphabet with
  | Some c => c
  | None => b64_pad
  end.

(** The four characters of a group of 24 bits. *)
Definition b64_quad (n : N) : ascii * ascii * ascii * ascii :=
  (b64_char (N.shiftr n 18),
   b64_char (N.land (N.shiftr n 12) 63),
   b64_char (N.land (N.shiftr n 6) 63),
   b64_char (N.land n 63)).

Definition b64_group (a b c : ascii) : N :=
  N.lor (N.shiftl (N_of_ascii a) 16)
        (N.lor (N.shiftl (N_of_ascii b) 8) (N_of_ascii c)).

(** Base64 of a byte string, without line breaks: three bytes give four
    characters, and a last group of one or two bytes is padded with [=]. *)
Fixpoint b64encode (s : bytes) : bytes :=
  match s with
  | EmptyString => EmptyString
  | String a EmptyString =>
      let '(w, x, _, _) := b64_quad (b64_group a zero zero) in
      String w (String x (String b64_pad (String b64_pad EmptyString)))
  | String a (String b EmptyString) =>
      let '(w, x, y, _) := b64_quad (b64_group a b zero) in
      String w (String x (String y (String b64_pad EmptyString)))
  | String a (String b (String c rest)) =>
      let '(w, x, y, z) := b64_quad (b64_group a b c) in
      String w (String x (String y (String z (b64encode rest))))
  end.

(** [binascii.b2a_base64(chunk)]: the base64 of the chunk and a newline. *)
Definition b2a_base64 (chunk : bytes) : bytes :=
  b64encode chunk ++ String "010"%char EmptyString.

Definition MAXBINSIZE : nat := 57.

(** [range(0, n, step)] for a positive [step]. *)
Definition range_step (n step : nat) : list nat :=
  List.map (fun k => (k * step)%nat) (seq 0 (Nat.div (n + step - 1) step)).

(** [base64.encodebytes(s)]: the input is cut in chunks of [MAXBINSIZE]
    bytes, [s[i : i + MAXBINSIZE]] for [i] in
    [range(0, len(s), MAXBINSIZE)], and the encoded lines are joined. *)
Definition encodebytes (s : bytes) : bytes :=
  String.concat ""
    (List.map (fun i => b2a_base64 (substring i MAXBINSIZE s))
              (range_step (String.length s) MAXBINSIZE)).

End Py.

Import Py.

Notation "x <- m ;; k" := (Py.bind m (fun x => k))
  (at level 20, m at level 99, k at level 200, only parsing).
Notation "' p <- m ;; k" := (Py.bind m (fun p => k))
  (at level 20, p pattern, m at level 99, k at level 200, only parsing).

(** ** braintree.exceptions: the error taxonomy *)

(** The argument of an error that takes one: a message, or the exception
    that caused it. *)
Inductive error_arg : Type :=
| Message (s : str)
| Cause (e : py_exception).

(** The exception classes that [http.py] imports and raises. *)
Inductive error : Type :=
| AuthenticationError
| AuthorizationError (message : option str)
| NotFoundError
| RequestTimeoutError
| UpgradeRequiredError
| TooManyRequestsError
| ServerError
| ServiceUnavailableError
| GatewayTimeoutError
| UnexpectedError (arg : error_arg)
| ConnectionError (e : py_exception)
| InvalidResponseError (e : py_exception)
| ConnectTimeoutError (e : py_exception)
| ReadTimeoutError (e : py_exception)
| TimeoutError (e : py_exception).

(** What a call of the transport client raises: an error of the taxonomy,
    or a Python exception that propagates as it is. *)
Inductive exn : Type :=
| Braintree (e : error)
| Python (e : py_exception).

Definition lift {A} (m : outcome py_exception A) : outcome exn A :=
  match m with
  | Return a => Return a
  | Raise e => Raise (Python e)
  end.

(** The classes of [requests.exceptions] that [handle_exception] tests. *)
Module requests.
Definition ReadTimeout : string := "requests.exceptions.ReadTimeout".
Definition ConnectTimeout : string := "requests.exceptions.ConnectTimeout".
Definition ConnectionError : string := "requests.exceptions.ConnectionError".
Definition HTTPError : string := "requests.exceptions.HTTPError".
Definition Timeout : string := "requests.exceptions.Timeout".

(** What [requests.Session.send] is given, and what it answers. *)
Record Request : Type := {
  method : str;
  url : str;
  headers : gmap string value;
  data : value;
  files : value;
  verify : value;
  timeout : value
}.

Record Response : Type := {
  status_code : Z;
  content : bytes;
  text : code_points
}.
End requests.

(** ** What [http.py] imports from outside the source

    [Environment] (braintree/environment.py), [XmlUtil]
    (braintree/util/xml_util.py), [version.Version], the process-wide
    [Configuration.api_version()], [json.loads] and [sys.version_info] are
    not part of the source: the model takes them as parameters.
    [Environment_eq a b] is Python's [a == b] on environments. *)
Class Imports : Type := {
  Environment : Type;
  Environment_eq : Environment -> Environment -> bool;
  Development : Environment;
  ssl_certificate : Environment -> value;
  xml_from_dict : value -> outcome py_exception str;
  dict_from_xml : payload -> outcome py_exception value;
  json_loads : payload -> outcome py_exception value;
  Version : str;
  api_version : str;
  version_info : Z * Z
}.

(** The configuration object ([braintree/configuration.py], outside the
    source): the attributes and the results of the methods that [Http]
    reads. A credential that is not set is [None]. *)
Module Configuration.
Record t `{Imports} : Type := {
  environment : Environment;
  client_id : option str;
  client_secret : option str;
  access_token : option str;
  public_key : option str;
  private_key : option str;
  has_client_credentials : bool;
  has_access_token : bool;
  base_url : str;
  graphql_base_url : str;
  wrap_http_exceptions : bool;
  timeout : value
}.
End Configuration.

(** An HTTP strategy, the object that [config.http_strategy()] returns:
    [Http] itself by default, or one that the application supplies. *)
Record HttpStrategy : Type := {
  strategy_http_do :
    str -> str -> gmap string value -> value ->
    outcome py_exception (Z * payload);
  strategy_handle_exception : py_exception -> outcome exn unit
}.

(** ** class Http *)

Module Http.

Module ContentType.
Definition Xml : str := "application/xml".
Definition Multipart : str := "multipart/form-data".
Definition Json : str := "application/json".
End ContentType.

Definition is_error_status (status : Z) : bool :=
  negb (existsb (Z.eqb status) [200; 201; 204; 422]).

Definition raise_exception_from_status (status : Z) (message : option str)
  : outcome exn unit :=
  if status =? 401 then Raise (Braintree AuthenticationError)
  else if status =? 403 then Raise (Braintree (AuthorizationError message))
  else if status =? 404 then Raise (Braintree NotFoundError)
  else if status =? 408 then Raise (Braintree RequestTimeoutError)
  else if status =? 426 then Raise (Braintree UpgradeRequiredError)
  else if status =? 429 then Raise (Braintree TooManyRequestsError)
  else if status =? 500 then Raise (Braintree ServerError)
  else if status =? 503 then Raise (Braintree ServiceUnavailableError)
  else if status =? 504 then Raise (Braintree GatewayTimeoutError)
  else Raise (Braintree (UnexpectedError
                (Message ("Unexpected HTTP_RESPONSE " ++ str_of_int status)))).

Definition handle_exception (exception : py_exception) : outcome exn unit :=
  if isinstance exception requests.ReadTimeout
  then Raise (Braintree (ReadTimeoutError exception))
  else if isinstance exception requests.ConnectTimeout
  then Raise (Braintree (ConnectTimeoutError exception))
  else if isinstance exception requests.ConnectionError
  then Raise (Braintree (ConnectionError exception))
  else if isinstance exception requests.HTTPError
  then Raise (Braintree (InvalidResponseError exception))
  else if isinstance exception requests.Timeout
  then Raise (Braintree (TimeoutError exception))
  else Raise (Braintree (UnexpectedError (Cause exception))).

Import Configuration.

Section Client.
Context `{Imports}.

(** The object: [self.config] and [self.environment]. *)
Record t : Type := {
  config : Configuration.t;
  self_environment : Environment
}.

(** [environment or self.config.environment]: an environment object is
    truthy, [None] is not. *)
Definition __init__ (config : Configuration.t) (environment : option Environment)
  : t :=
  {| config := config;
     self_environment :=
       match environment with
       | Some e => e
       | None => Configuration.environment config
       end |}.

(** [x.encode('ascii')] of an attribute that may be [None]. *)
Definition encode_attr (x : option str) : outcome py_exception bytes :=
  match x with
  | Some s => encode_ascii s
  | None => Raise (AttributeError "'NoneType' object has no attribute 'encode'")
  end.

Definition newline : bytes := String "010"%char EmptyString.

Definition __authorization_header (self : t) : outcome py_exception bytes :=
  if self.(config).(has_client_credentials) then
    id <- encode_attr self.(config).(client_id) ;;
    secret <- encode_attr self.(config).(client_secret) ;;
    Return ("Basic " ++ strip (replace (encodebytes (id ++ ":" ++ secret)) newline ""))
  else if self.(config).(has_access_token) then
    token <- encode_attr self.(config).(access_token) ;;
    Return ("Bearer " ++ token)
  else
    public <- encode_attr self.(config).(public_key) ;;
    private <- encode_attr self.(config).(private_key) ;;
    Return ("Basic " ++ strip (replace (encodebytes (public ++ ":" ++ private)) newline "")).

Definition __headers (self : t) (content_type : str)
    (header_overrides : option (gmap string value))
  : outcome py_exception (gmap string value) :=
  authorization <- __authorization_header self ;;
  let headers : gmap string value :=
    <["X-ApiVersion" := VStr api_version]>
    (<["Accept-Encoding" := VStr "gzip"]>
    (<["User-Agent" := VStr ("Braintree Python " ++ Version)]>
    (<["Authorization" := VBytes authorization]>
    (<["Accept" := VStr "application/xml"]> ∅)))) in
  let headers :=
    if String.eqb content_type ContentType.Xml
    then <["Content-type" := VStr ContentType.Xml]> headers
    else headers in
  Return (default ∅ header_overrides ∪ headers).

Definition __request_body (content_type : str) (params files : value)
  : outcome py_exception value :=
  if String.eqb content_type ContentType.Xml then
    if truthy params
    then request_body <- xml_from_dict params ;; Return (VStr request_body)
    else Return (VStr "")
  else if is_None files then Return params
  else Return (VTuple [params; files]).

Definition __full_path (self : t) (path : str) : str :=
  if startswith path self.(config).(base_url)
     || startswith path self.(config).(graphql_base_url)
  then path
  else self.(config).(base_url) ++ path.

(** The [verify] argument that [http_do] gives to [session.send]. *)
Definition http_do_verify (self : t) : value :=
  if Environment_eq self.(config).(environment) Development
  then VBool false
  else ssl_certificate self.(self_environment).

(** [http_do]; [send] stands for the [requests] session: preparing the
    request and sending it. *)
Definition http_do (self : t)
    (send : requests.Request -> outcome py_exception requests.Response)
    (http_verb path : str) (headers : gmap string value) (request_body : value)
  : outcome py_exception (Z * payload) :=
  let full_path := __full_path self path in
  '(data, files) <-
    match request_body with
    | VTuple l =>
        match l with
        | d :: f :: _ => Return (d, f)
        | _ => Raise (IndexError "tuple index out of range")
        end
    | _ => Return (request_body, VNone)
    end ;;
  let verify := http_do_verify self in
  response <-
    send {| requests.method := http_verb;
            requests.url := full_path;
            requests.headers := headers;
            requests.data := data;
            requests.files := files;
            requests.verify := verify;
            requests.timeout := self.(config).(Configuration.timeout) |} ;;
  let '(major, minor) := version_info in
  if (major =? 3) && (minor >? 5)
  then Return (response.(requests.status_code), Bytes response.(requests.content))
  else Return (response.(requests.status_code), Text response.(requests.text)).

(** [Http] as the HTTP strategy of its own requests. *)
Definition strategy (self : t)
    (send : requests.Request -> outcome py_exception requests.Response)
  : HttpStrategy :=
  {| strategy_http_do := http_do self send;
     strategy_handle_exception := handle_exception |}.

(** The [try] block of [_make_request]: the status and the body that
    [http_do] returned, or [None] when [handle_exception] returned and
    left the two variables unbound. An exception that is not an
    [Exception] is not caught. *)
Definition try_http_do (self : t) (http_strategy : HttpStrategy)
    (http_verb full_path : str) (headers : gmap string value)
    (request_body : value)
  : outcome exn (option (Z * payload)) :=
  match http_strategy.(strategy_http_do) http_verb full_path headers request_body with
  | Return r => Return (Some r)
  | Raise e =>
      if isinstance e "Exception" then
        if self.(config).(wrap_http_exceptions) then
          _ <- http_strategy.(strategy_handle_exception) e ;;
          Return None
        else Raise (Python e)
      else Raise (Python e)
  end.

Definition _make_request (self : t) (http_strategy : HttpStrategy)
    (http_verb path content_type : str) (params files : value)
    (header_overrides : option (gmap string value))
  : outcome exn value :=
  headers <- lift (__headers self content_type header_overrides) ;;
  request_body <- lift (__request_body content_type params files) ;;
  let full_path := __full_path self path in
  result <- try_http_do self http_strategy http_verb full_path headers request_body ;;
  match result with
  | None =>
      Raise (Python (UnboundLocalError
        "local variable 'status' referenced before assignment"))
  | Some (status, response_body) =>
      if is_error_status status then
        _ <- raise_exception_from_status status None ;;
        Return VNone
      else if Nat.eqb (payload_len (payload_strip response_body)) 0 then
        Return (VDict ∅)
      else if String.eqb content_type ContentType.Json then
        lift (json_loads response_body)
      else
        lift (dict_from_xml response_body)
  end.

Definition post self st path params :=
  _make_request self st "POST" path ContentType.Xml params VNone None.

Definition delete self st path :=
  _make_request self st "DELETE" path ContentType.Xml VNone VNone None.

Definition get self st path :=
  _make_request self st "GET" path ContentType.Xml VNone VNone None.

Definition put self st path params :=
  _make_request self st "PUT" path ContentType.Xml params VNone None.

Definition post_multipart self st path files params :=
  _make_request self st "POST" path ContentType.Multipart params files None.

End Client.
End Http.

(** ** class BusinessDetails *)

Module BusinessDetails.

(** What [business_details.py] imports from outside the source: the
    initialiser of the base class [AttributeGetter]
    (braintree/attribute_getter.py), which is given the attributes that
    [self] has and the mapping and returns the attributes that [self] has
    afterwards, and the constructor of [AddressDetails]
    (braintree/sub_merchant_account/address_details.py). Either may raise. *)
Class Imports : Type := {
  AttributeGetter__init__ :
    gmap string value -> value -> outcome py_exception (gmap string value);
  AddressDetails : value -> outcome py_exception value
}.

Definition detail_list : list string :=
  ["legal_name"; "registered_as"; "address_details"].

(** [attributes.get(key, default)]: a method of mappings only. *)
Definition get (attributes : value) (key : string) (default : value)
  : outcome py_exception value :=
  match attributes with
  | VDict d =>
      Return match d !! key with Some v => v | None => default end
  | _ => Raise (AttributeError "object has no attribute 'get'")
  end.

(** The instance attributes of the object that [BusinessDetails(attributes)]
    builds. *)
Definition __init__ `{Imports} (attributes : value)
  : outcome py_exception (gmap string value) :=
  self <- AttributeGetter__init__ ∅ attributes ;;
  address <- get attributes "address" (VDict ∅) ;;
  address_details <- AddressDetails address ;;
  Return (<["address_details" := address_details]> self).

End BusinessDetails.

(** ** The specification's tables *)

Module Spec.

(** The status table of the specification (section 4.1), row by row. *)
Definition status_table (message : option str) : list (Z * error) :=
  [ (401, AuthenticationError);
    (403, AuthorizationError message);
    (404, NotFoundError);
    (408, RequestTimeoutError);
    (426, UpgradeRequiredError);
    (429, TooManyRequestsError);
    (500, ServerError);
    (503, ServiceUnavailableError);
    (504, GatewayTimeoutError) ].

(** The error of a status: its row in the table, or [Unexpected] with the
    status in the message. *)
Definition error_of_status (message : option str) (status : Z) : error :=
  match List.find (fun row => fst row =? status) (status_table message) with
  | Some row => snd row
  | None =>
      UnexpectedError (Message ("Unexpected HTTP_RESPONSE " ++ str_of_int status))
  end.

(** The success statuses of the specification. *)
Definition success_statuses : list Z := [200; 201; 204; 422].

(** The transport exceptions in the priority order of the specification:
    the first kind an exception belongs to decides its error. *)
Definition transport_priority : list (string * (py_exception -> error)) :=
  [ (requests.ReadTimeout, ReadTimeoutError);
    (requests.ConnectTimeout, ConnectTimeoutError);
    (requests.ConnectionError, ConnectionError);
    (requests.HTTPError, InvalidResponseError);
    (requests.Timeout, TimeoutError) ].

Definition error_of_exception (e : py_exception) : error :=
  match List.find (fun row => isinstance e (fst row)) transport_priority with
  | Some row => snd row e
  | None => UnexpectedError (Cause e)
  end.

(** [s] starts with [p]. *)
Definition starts_with (s p : str) : Prop := exists t, s = p ++ t.

(** A header value with no newline in it and no whitespace at its end. *)
Fixpoint has_newline (s : bytes) : bool :=
  match s with
  | EmptyString => false
  | String c s' => Ascii.eqb c "010"%char || has_newline s'
  end.

Definition stripped (s : bytes) : Prop :=
  has_newline s = false /\ rstrip s = s.

End Spec.

(** ** Sample collaborators

    Concrete environments, decoders, configurations and transports, on
    which the model runs. The decoders are stand-ins: they wrap the body
    they are given. *)

Module Sample.

Inductive environment : Type := development | sandbox | production.

Definition environment_eq (a b : environment) : bool :=
  match a, b with
  | development, development | sandbox, sandbox | production, production => true
  | _, _ => false
  end.

Definition certificate (e : environment) : value :=
  match e with
  | development => VNone
  | sandbox => VStr "ssl/sandbox.ca.crt"
  | production => VStr "ssl/production.ca.crt"
  end.

Definition payload_value (p : payload) : value :=
  match p with
  | Bytes b => VBytes b
  | Text t => VTuple (List.map (fun c => VInt (Z.of_N c)) t)
  end.

(** The text of a response whose content is Latin-1. *)
Definition latin1 (b : bytes) : code_points :=
  List.map N_of_ascii (list_ascii_of_string b).

Definition imports : Imports :=
  {| Environment := environment;
     Environment_eq := environment_eq;
     Development := development;
     ssl_certificate := certificate;
     xml_from_dict := fun v =>
       match v with
       | VDict _ => Return "<params/>"
       | _ => Raise (AttributeError "object has no attribute 'items'")
       end;
     dict_from_xml := fun b => Return (VDict {[ "xml" := payload_value b ]});
     json_loads := fun b => Return (VDict {[ "json" := payload_value b ]});
     Version := "4.0.0";
     api_version := "6";
     version_info := (3, 11) |}.

(** A configuration with an API key pair; the other samples change one
    field or two. *)
Definition config_keys : @Configuration.t imports :=
  {| Configuration.environment := (sandbox : @Environment imports);
     Configuration.client_id := None;
     Configuration.client_secret := None;
     Configuration.access_token := None;
     Configuration.public_key := Some "public_key";
     Configuration.private_key := Some "private_key";
     Configuration.has_client_credentials := false;
     Configuration.has_access_token := false;
     Configuration.base_url := "https://api.sandbox.braintreegateway.com:443";
     Configuration.graphql_base_url :=
       "https://payments.sandbox.braintree-api.com/graphql";
     Configuration.wrap_http_exceptions := true;
     Configuration.timeout := VInt 60 |}.

Definition with_environment (e : environment) (c : @Configuration.t imports)
  : @Configuration.t imports :=
  {| Configuration.environment := (e : @Environment imports);
     Configuration.client_id := Configuration.client_id c;
     Configuration.client_secret := Configuration.client_secret c;
     Configuration.access_token := Configuration.access_token c;
     Configuration.public_key := Configuration.public_key c;
     Configuration.private_key := Configuration.private_key c;
     Configuration.has_client_credentials := Configuration.has_client_credentials c;
     Configuration.has_access_token := Configuration.has_access_token c;
     Configuration.base_url := Configuration.base_url c;
     Configuration.graphql_base_url := Configuration.graphql_base_url c;
     Configuration.wrap_http_exceptions := Configuration.wrap_http_exceptions c;
     Configuration.timeout := Configuration.timeout c |}.

Definition with_wrap (w : bool) (c : @Configuration.t imports)
  : @Configuration.t imports :=
  {| Configuration.environment := Configuration.environment c;
     Configuration.client_id := Configuration.client_id c;
     Configuration.client_secret := Configuration.client_secret c;
     Configuration.access_token := Configuration.access_token c;
     Configuration.public_key := Configuration.public_key c;
     Configuration.private_key := Configuration.private_key c;
     Configuration.has_client_credentials := Configuration.has_client_credentials c;
     Configuration.has_access_token := Configuration.has_access_token c;
     Configuration.base_url := Configuration.base_url c;
     Configuration.graphql_base_url := Configuration.graphql_base_url c;
     Configuration.wrap_http_exceptions := w;
     Configuration.timeout := Configuration.timeout c |}.

(** The same, with an access token set, or with client credentials too. *)
Definition with_access_token (token : str) (c : @Configuration.t imports)
  : @Configuration.t imports :=
  {| Configuration.environment := Configuration.environment c;
     Configuration.client_id := Configuration.client_id c;
     Configuration.client_secret := Configuration.client_secret c;
     Configuration.access_token := Some token;
     Configuration.public_key := Configuration.public_key c;
     Configuration.private_key := Configuration.private_key c;
     Configuration.has_client_credentials := Configuration.has_client_credentials c;
     Configuration.has_access_token := true;
     Configuration.base_url := Configuration.base_url c;
     Configuration.graphql_base_url := Configuration.graphql_base_url c;
     Configuration.wrap_http_exceptions := Configuration.wrap_http_exceptions c;
     Configuration.timeout := Configuration.timeout c |}.

Definition with_client_credentials (id secret : str)
    (c : @Configuration.t imports) : @Configuration.t imports :=
  {| Configuration.environment := Configuration.environment c;
     Configuration.client_id := Some id;
     Configuration.client_secret := Some secret;
     Configuration.access_token := Configuration.access_token c;
     Configuration.public_key := Configuration.public_key c;
     Configuration.private_key := Configuration.private_key c;
     Configuration.has_client_credentials := true;
     Configuration.has_access_token := Configuration.has_access_token c;
     Configuration.base_url := Configuration.base_url c;
     Configuration.graphql_base_url := Configuration.graphql_base_url c;
     Configuration.wrap_http_exceptions := Configuration.wrap_http_exceptions c;
     Configuration.timeout := Configuration.timeout c |}.

(** [Http(config)]. *)
Definition client (c : @Configuration.t imports) : @Http.t imports :=
  Http.__init__ c None.

(** The headers and the body of a request of a client, when building them
    does not raise. *)
Definition headers_of (self : @Http.t imports) (content_type : str)
  : gmap string value :=
  match Http.__headers self content_type None with
  | Return h => h
  | Raise _ => ∅
  end.

Definition body_of (content_type : str) (params files : value) : value :=
  match @Http.__request_body imports content_type params files with
  | Return b => b
  | Raise _ => VNone
  end.

(** A gateway that answers every request with one status and body, and
    one that fails every request with one exception. *)
Definition respond (status : Z) (body : bytes)
  : requests.Request -> outcome py_exception requests.Response :=
  fun _ => Return {| requests.status_code := status;
                     requests.content := body;
                     requests.text := latin1 body |}.

Definition fail (e : py_exception)
  : requests.Request -> outcome py_exception requests.Response :=
  fun _ => Raise e.

(** Exceptions of [requests], with the MRO of their classes, and one that
    is not an [Exception]. *)
Definition request_exception_bases : list string :=
  ["requests.exceptions.RequestException"; "OSError"; "Exception";
   "BaseException"; "object"].

Definition read_timeout : py_exception :=
  PyException
    (requests.ReadTimeout :: requests.Timeout :: request_exception_bases)
    "Read timed out.".

Definition connect_timeout : py_exception :=
  PyException
    (requests.ConnectTimeout :: requests.ConnectionError :: requests.Timeout
       :: request_exception_bases)
    "Connection to gateway timed out.".

Definition connection_error : py_exception :=
  PyException (requests.ConnectionError :: request_exception_bases)
    "Connection refused.".

Definition http_error : py_exception :=
  PyException (requests.HTTPError :: request_exception_bases) "Bad response.".

Definition plain_timeout : py_exception :=
  PyException (requests.Timeout :: request_exception_bases) "Timed out.".

Definition value_error : py_exception :=
  PyException ["ValueError"; "Exception"; "BaseException"; "object"] "bad value".

Definition keyboard_interrupt : py_exception :=
  PyException ["KeyboardInterrupt"; "BaseException"; "object"] "".

(** A strategy whose [handle_exception] returns instead of raising. *)
Definition lenient_strategy (e : py_exception) : HttpStrategy :=
  {| strategy_http_do := fun _ _ _ _ => Raise e;
     strategy_handle_exception := fun _ => Return tt |}.

(** Stand-ins for the collaborators of [BusinessDetails]: an initialiser
    that copies the keys of the mapping into the attributes, and an
    [AddressDetails] whose instances hold the attributes they were given. *)
Definition business_imports : BusinessDetails.Imports :=
  {| BusinessDetails.AttributeGetter__init__ := fun self attributes =>
       match attributes with
       | VDict d => Return (d ∪ self)
       | VNone => Return self
       | _ => Raise (AttributeError "object has no attribute 'items'")
       end;
     BusinessDetails.AddressDetails := fun attributes =>
       match attributes with
       | VDict d => Return (VObject "AddressDetails" d)
       | VNone => Return (VObject "AddressDetails" ∅)
       | _ => Raise (AttributeError "object has no attribute 'items'")
       end |}.

End Sample.

(** ** Notions that the further properties speak of *)

Module Notion.

(** The exception that an error of the taxonomy was built from. *)
Definition cause (e : error) : option py_exception :=
  match e with
  | ConnectionError c | InvalidResponseError c | ConnectTimeoutError c
  | ReadTimeoutError c | TimeoutError c => Some c
  | UnexpectedError (Cause c) => Some c
  | _ => None
  end.

(** A credential that [encode('ascii')] accepts: set, and ASCII. *)
Definition usable (credential : option str) : bool :=
  match credential with
  | Some s => is_ascii s
  | None => false
  end.

(** The credentials that [__authorization_header] reads, in the order in
    which it reads them. *)
Definition selected_credentials `{Imports} (config : Configuration.t)
  : list (option str) :=
  if Configuration.has_client_credentials config then
    [Configuration.client_id config; Configuration.client_secret config]
  else if Configuration.has_access_token config then
    [Configuration.access_token config]
  else
    [Configuration.public_key config; Configuration.private_key config].

(** The entry of the dictionary that [__headers] builds before it applies
    the overrides. *)
Definition default_header `{Imports} (content_type : str) (authorization : bytes)
    (key : string) : option value :=
  if String.eqb key "Accept" then Some (VStr "application/xml")
  else if String.eqb key "Authorization" then Some (VBytes authorization)
  else if String.eqb key "User-Agent"
       then Some (VStr ("Braintree Python " ++ Version))
  else if String.eqb key "Accept-Encoding" then Some (VStr "gzip")
  else if String.eqb key "X-ApiVersion" then Some (VStr api_version)
  else if String.eqb key "Content-type" then
    if String.eqb content_type Http.ContentType.Xml
    then Some (VStr Http.ContentType.Xml) else None
  else None.

(** The data and the files that [http_do] takes from a request body. *)
Definition unpack (request_body : value) : outcome py_exception (value * value) :=
  match request_body with
  | VTuple l =>
      match l with
      | d :: f :: _ => Return (d, f)
      | _ => Raise (IndexError "tuple index out of range")
      end
  | _ => Return (request_body, VNone)
  end.

(** The request that [http_do] gives to the session for a URL, headers,
    data and files. *)
Definition sent_request `{Imports} (self : Http.t) (http_verb url : str)
    (headers : gmap string value) (data files : value) : requests.Request :=
  {| requests.method := http_verb;
     requests.url := url;
     requests.headers := headers;
     requests.data := data;
     requests.files := files;
     requests.verify := Http.http_do_verify self;
     requests.timeout := Configuration.timeout (Http.config self) |}.

(** The body that [http_do] returns for a response: its content from
    Python 3.6 on, its text before. *)
Definition received_body `{Imports} (response : requests.Response) : payload :=
  let '(major, minor) := version_info in
  if (major =? 3) && (minor >? 5)
  then Bytes response.(requests.content)
  else Text response.(requests.text).

(** The session checks the certificate of the server when [verify] is
    truthy, the path of a CA bundle or [True]; with [False], [None] or an
    empty path it does not. *)
Definition verification_off (verify : value) : bool := negb (truthy verify).

(** What becomes of the answer of the session to the one request of a
    call, by the tables of the specification: the error of an error
    status, the empty mapping for a blank body, the decoded body
    otherwise; the exception itself where exceptions are not wrapped or
    it is not an [Exception], and its error where they are. *)
Definition result_of_answer `{Imports} (self : Http.t) (content_type : str)
    (answer : outcome py_exception requests.Response) : outcome exn value :=
  match answer with
  | Return response =>
      let status := response.(requests.status_code) in
      if existsb (Z.eqb status) Spec.success_statuses then
        if blank (received_body response) then Return (VDict ∅)
        else if String.eqb content_type Http.ContentType.Json
             then lift (json_loads (received_body response))
             else lift (dict_from_xml (received_body response))
      else Raise (Braintree (Spec.error_of_status None status))
  | Raise e =>
      if isinstance e "Exception"
         && Configuration.wrap_http_exceptions (Http.config self)
      then Raise (Braintree (Spec.error_of_exception e))
      else Raise (Python e)
  end.

End Notion.

(** ** More samples *)

Module More_samples.

(** The headers of a request with overrides, when building them does not
    raise. *)
Definition headers_with (self : @Http.t Sample.imports) (content_type : str)
    (overrides : gmap string value) : gmap string value :=
  match Http.__headers self content_type (Some overrides) with
  | Return h => h
  | Raise _ => ∅
  end.

(** A session that answers the requests of one verb to one URL with one
    status and body, and refuses every other request. *)
Definition picky_session (verb url : str) (status : Z) (body : bytes)
  : requests.Request -> outcome py_exception requests.Response :=
  fun request =>
    if String.eqb (requests.method request) verb
       && String.eqb (requests.url request) url
    then Sample.respond status body request
    else Raise Sample.connection_error.

(** A client id that is not ASCII. *)
Definition accented_id : str := String "233"%char "lient".

Definition config_accented : @Configuration.t Sample.imports :=
  Sample.with_client_credentials accented_id "client_secret" Sample.config_keys.

End More_samples.

(** * Properties *)

(** ** The Python functions on samples *)

Example str_of_int_409 : Py.str_of_int 409 = "409".
Proof. reflexivity. Qed.

Example str_of_int_negative : Py.str_of_int (-7) = "-7".
Proof. reflexivity. Qed.

Example strip_blank : Py.strip (String "009"%char (String "010"%char " ")) = "".
Proof. reflexivity. Qed.

Example strip_both_ends : Py.strip "  <a> b </a> " = "<a> b </a>".
Proof. reflexivity. Qed.

Example replace_newlines :
  Py.replace (String "010"%char ("ab" ++ String "010"%char ("c" ++ String "010"%char "")))
             (String "010"%char "") "" = "abc".
Proof. reflexivity. Qed.

Example replace_word : Py.replace "aXYbXYXc" "XY" "-" = "a-b-Xc".
Proof. reflexivity. Qed.

(** The test vectors of RFC 4648, section 10. *)
Example b64encode_rfc4648 :
  List.map Py.b64encode ["" ; "f"; "fo"; "foo"; "foob"; "fooba"; "foobar"]
  = [""; "Zg=="; "Zm8="; "Zm9v"; "Zm9vYg=="; "Zm9vYmE="; "Zm9vYmFy"].
Proof. reflexivity. Qed.

Example encodebytes_short :
  Py.encodebytes "key:secret" = "a2V5OnNlY3JldA==" ++ String "010"%char "".
Proof. reflexivity. Qed.

(** ** Strings *)

Lemma startswith_spec (s p : str) :
  startswith s p = true <-> Spec.starts_with s p.
Proof.
  unfold Spec.starts_with. revert s.
  induction p as [|a p IH]; intros s.
  - destruct s; simpl; split; trivial; intros _; eexists; reflexivity.
  - destruct s as [|b s]; simpl.
    + split; [discriminate | intros [t Ht]; discriminate].
    + rewrite andb_true_iff, Ascii.eqb_eq, IH. split.
      * intros [-> [t ->]]. exists t. reflexivity.
      * intros [t Ht]. injection Ht as -> ->.
        split; [reflexivity | exists t; reflexivity].
Qed.

Lemma lstrip_all_space (s : bytes) : all_space s = true -> lstrip s = "".
Proof.
  induction s as [|c s IH]; simpl; trivial.
  intros [Hc Hs]%andb_true_iff. rewrite Hc. auto.
Qed.

Lemma lstrip_empty (s : bytes) : lstrip s = "" -> all_space s = true.
Proof.
  induction s as [|c s IH]; simpl; trivial.
  destruct (is_space c); simpl; [assumption | discriminate].
Qed.

Lemma lstrip_head (s : bytes) c t :
  lstrip s = String c t -> is_space c = false.
Proof.
  induction s as [|b s IH]; simpl; [discriminate|].
  destruct (is_space b) eqn:Hb; [assumption|].
  intros [= <- _]. assumption.
Qed.

Lemma rstrip_empty (s : bytes) : rstrip s = "" <-> all_space s = true.
Proof.
  induction s as [|c s IH]; simpl; [tauto|].
  rewrite andb_true_iff, <- IH.
  destruct (rstrip s); destruct (is_space c); split; try tauto;
    try discriminate; intros [? ?]; discriminate.
Qed.

Lemma strip_length_zero (s : bytes) :
  Nat.eqb (String.length (strip s)) 0 = all_space s.
Proof.
  unfold strip.
  destruct (all_space s) eqn:Hs.
  - rewrite (lstrip_all_space s Hs). reflexivity.
  - destruct (lstrip s) as [|c t] eqn:Hl.
    + apply lstrip_empty in Hl. congruence.
    + pose proof (lstrip_head _ _ _ Hl) as Hc.
      destruct (rstrip (String c t)) eqn:Hr; [|reflexivity].
      apply rstrip_empty in Hr. simpl in Hr. rewrite Hc in Hr. discriminate.
Qed.

(** The same for the text of a response, and for a body of either type. *)
Lemma text_lstrip_all_space (s : code_points) :
  text_all_space s = true -> text_lstrip s = [].
Proof.
  induction s as [|c s IH]; simpl; trivial.
  intros [Hc Hs]%andb_true_iff. rewrite Hc. auto.
Qed.

Lemma text_lstrip_empty (s : code_points) :
  text_lstrip s = [] -> text_all_space s = true.
Proof.
  induction s as [|c s IH]; simpl; trivial.
  destruct (is_unicode_space c); simpl; [assumption | discriminate].
Qed.

Lemma text_lstrip_head (s : code_points) c t :
  text_lstrip s = c :: t -> is_unicode_space c = false.
Proof.
  induction s as [|b s IH]; simpl; [discriminate|].
  destruct (is_unicode_space b) eqn:Hb; [assumption|].
  intros [= <- _]. assumption.
Qed.

Lemma text_rstrip_empty (s : code_points) :
  text_rstrip s = [] <-> text_all_space s = true.
Proof.
  induction s as [|c s IH]; simpl; [tauto|].
  rewrite andb_true_iff, <- IH.
  destruct (text_rstrip s); destruct (is_unicode_space c); split; try tauto;
    try discriminate; intros [? ?]; discriminate.
Qed.

Lemma text_strip_length_zero (s : code_points) :
  Nat.eqb (List.length (text_strip s)) 0 = text_all_space s.
Proof.
  unfold text_strip.
  destruct (text_all_space s) eqn:Hs.
  - rewrite (text_lstrip_all_space s Hs). reflexivity.
  - destruct (text_lstrip s) as [|c t] eqn:Hl.
    + apply text_lstrip_empty in Hl. congruence.
    + pose proof (text_lstrip_head _ _ _ Hl) as Hc.
      destruct (text_rstrip (c :: t)) eqn:Hr; [|reflexivity].
      apply text_rstrip_empty in Hr. simpl in Hr. rewrite Hc in Hr. discriminate.
Qed.

Lemma payload_strip_length_zero (p : payload) :
  Nat.eqb (payload_len (payload_strip p)) 0 = blank p.
Proof.
  destruct p as [b | t]; cbn [payload_strip payload_len blank].
  - apply strip_length_zero.
  - apply text_strip_length_zero.
Qed.

(** ** The request URL *)

Section Client_properties.
Context `{Imports}.

(** C6. For every path string, the full request URL is the path itself when
    the path starts with the base URL or with the GraphQL base URL of the
    configuration, and the base URL followed by the path otherwise. *)
Theorem full_path_spec (self : Http.t) (path : str) :
  let base := Configuration.base_url (Http.config self) in
  let graphql := Configuration.graphql_base_url (Http.config self) in
  (Spec.starts_with path base \/ Spec.starts_with path graphql ->
   Http.__full_path self path = path) /\
  (~ Spec.starts_with path base -> ~ Spec.starts_with path graphql ->
   Http.__full_path self path = base ++ path).
Proof.
  intros base graphql. unfold Http.__full_path. fold base graphql.
  split.
  - intros [Hp | Hp]; apply startswith_spec in Hp; rewrite Hp;
      [reflexivity | rewrite orb_true_r; reflexivity].
  - intros Hb Hg.
    destruct (startswith path base) eqn:Eb.
    { exfalso. apply Hb, startswith_spec, Eb. }
    destruct (startswith path graphql) eqn:Eg.
    { exfalso. apply Hg, startswith_spec, Eg. }
    reflexivity.
Qed.

(** ** Status codes *)

Lemma is_error_status_spec (status : Z) :
  Http.is_error_status status = false <-> In status Spec.success_statuses.
Proof.
  unfold Http.is_error_status, Spec.success_statuses.
  rewrite negb_false_iff, existsb_exists. split.
  - intros [x [Hx Heq]]. apply Z.eqb_eq in Heq. subst x. exact Hx.
  - intros Hin. exists status. split; [exact Hin | apply Z.eqb_refl].
Qed.

Lemma is_error_status_true (status : Z) :
  ~ In status Spec.success_statuses -> Http.is_error_status status = true.
Proof.
  intros Hn. destruct (Http.is_error_status status) eqn:E; trivial.
  apply is_error_status_spec in E. contradiction.
Qed.

(** The chain of comparisons of [raise_exception_from_status] is the
    table of the specification. *)
Lemma raise_exception_from_status_table (status : Z) (message : option str) :
  Http.raise_exception_from_status status message
  = Raise (Braintree (Spec.error_of_status message status)).
Proof.
  unfold Http.raise_exception_from_status, Spec.error_of_status,
    Spec.status_table.
  cbn [List.find fst snd].
  repeat match goal with
         | |- context [?a =? ?b] =>
             destruct (Z.eqb_spec a b); [subst; try reflexivity; try lia |]
         end;
    try reflexivity; try lia.
Qed.

(** What [_make_request] does once the strategy has answered. *)
Lemma make_request_answered (self : Http.t) (st : HttpStrategy)
    (verb path content_type : str) (params files : value)
    (overrides : option (gmap string value))
    (headers : gmap string value) (body : value)
    (status : Z) (response_body : payload) :
  Http.__headers self content_type overrides = Return headers ->
  Http.__request_body content_type params files = Return body ->
  strategy_http_do st verb (Http.__full_path self path) headers body
    = Return (status, response_body) ->
  Http._make_request self st verb path content_type params files overrides
  = if Http.is_error_status status then
      Raise (Braintree (Spec.error_of_status None status))
    else if blank response_body then Return (VDict ∅)
    else if String.eqb content_type Http.ContentType.Json
         then lift (json_loads response_body)
         else lift (dict_from_xml response_body).
Proof.
  intros Hh Hb Hdo.
  unfold Http._make_request, Http.try_http_do.
  rewrite Hh, Hb. cbn [lift Py.bind]. rewrite Hdo. cbn [Py.bind].
  rewrite raise_exception_from_status_table, payload_strip_length_zero.
  destruct (Http.is_error_status status); reflexivity.
Qed.

(** C1. When the strategy answers with a status outside 200, 201, 204 and
    422, [_make_request] raises the error of the status in the table of the
    specification: 401 Authentication, 403 Authorization, 404 NotFound,
    408 RequestTimeout, 426 UpgradeRequired, 429 TooManyRequests,
    500 Server, 503 ServiceUnavailable, 504 GatewayTimeout, and for any
    other status Unexpected with the message "Unexpected HTTP_RESPONSE "
    followed by the status. *)
Theorem make_request_error_status (self : Http.t) (st : HttpStrategy)
    (verb path content_type : str) (params files : value)
    (overrides : option (gmap string value))
    (headers : gmap string value) (body : value)
    (status : Z) (response_body : payload) :
  Http.__headers self content_type overrides = Return headers ->
  Http.__request_body content_type params files = Return body ->
  strategy_http_do st verb (Http.__full_path self path) headers body
    = Return (status, response_body) ->
  ~ In status Spec.success_statuses ->
  Http._make_request self st verb path content_type params files overrides
  = Raise (Braintree (Spec.error_of_status None status)).
Proof.
  intros Hh Hb Hdo Hstatus.
  rewrite (make_request_answered _ _ _ _ _ _ _ _ _ _ _ _ Hh Hb Hdo).
  rewrite (is_error_status_true _ Hstatus). reflexivity.
Qed.

(** C2. The statuses that are not error statuses are 200, 201, 204 and 422
    and no other. When the strategy answers with one of them,
    [_make_request] raises no error of the taxonomy: it returns the empty
    mapping when the body is empty or whitespace only, and otherwise what
    [json.loads] gives for the body when the content type is JSON and what
    [XmlUtil.dict_from_xml] gives for it when it is not. The whitespace is
    that of [strip] for the type of the body: of [bytes.strip] for the
    bytes of a response and of [str.strip] for its text. *)
Theorem make_request_success_status (self : Http.t) (st : HttpStrategy)
    (verb path content_type : str) (params files : value)
    (overrides : option (gmap string value))
    (headers : gmap string value) (body : value)
    (status : Z) (response_body : payload) :
  Http.__headers self content_type overrides = Return headers ->
  Http.__request_body content_type params files = Return body ->
  strategy_http_do st verb (Http.__full_path self path) headers body
    = Return (status, response_body) ->
  In status Spec.success_statuses ->
  let result :=
    Http._make_request self st verb path content_type params files overrides in
  (forall s, Http.is_error_status s = false <-> In s Spec.success_statuses) /\
  (blank response_body = true -> result = Return (VDict ∅)) /\
  (blank response_body = false ->
   content_type = Http.ContentType.Json ->
   result = lift (json_loads response_body)) /\
  (blank response_body = false ->
   content_type <> Http.ContentType.Json ->
   result = lift (dict_from_xml response_body)) /\
  (forall e, result <> Raise (Braintree e)).
Proof.
  intros Hh Hb Hdo Hstatus result. subst result.
  rewrite (make_request_answered _ _ _ _ _ _ _ _ _ _ _ _ Hh Hb Hdo).
  apply is_error_status_spec in Hstatus. rewrite Hstatus.
  split; [exact is_error_status_spec|].
  split; [intros ->; reflexivity|].
  split; [intros -> ->; reflexivity|].
  split.
  - intros -> Hct. apply String.eqb_neq in Hct. rewrite Hct. reflexivity.
  - intros e.
    destruct (blank response_body); [discriminate|].
    destruct (String.eqb content_type Http.ContentType.Json).
    + destruct (json_loads response_body); discriminate.
    + destruct (dict_from_xml response_body); discriminate.
Qed.

(** C5, as the code has it. When the strategy answers with status 403,
    [_make_request] raises the Authorization error with its message unset
    ([None]): it calls [raise_exception_from_status] with the status alone,
    and nothing of the response reaches the error. The message that a
    caller gives to [raise_exception_from_status] is the message of the
    error. *)
Theorem make_request_403_message (self : Http.t) (st : HttpStrategy)
    (verb path content_type : str) (params files : value)
    (overrides : option (gmap string value))
    (headers : gmap string value) (body : value) (response_body : payload) :
  Http.__headers self content_type overrides = Return headers ->
  Http.__request_body content_type params files = Return body ->
  strategy_http_do st verb (Http.__full_path self path) headers body
    = Return (403, response_body) ->
  Http._make_request self st verb path content_type params files overrides
  = Raise (Braintree (AuthorizationError None)) /\
  (forall message,
     Http.raise_exception_from_status 403 message
     = Raise (Braintree (AuthorizationError message))).
Proof.
  intros Hh Hb Hdo.
  rewrite (make_request_answered _ _ _ _ _ _ _ _ _ _ _ _ Hh Hb Hdo).
  split; [reflexivity | intros message; reflexivity].
Qed.

(** ** Transport exceptions *)

(** The chain of [isinstance] tests of [handle_exception] is the priority
    list of the specification. *)
Lemma handle_exception_priority (e : py_exception) :
  Http.handle_exception e = Raise (Braintree (Spec.error_of_exception e)).
Proof.
  unfold Http.handle_exception, Spec.error_of_exception,
    Spec.transport_priority.
  cbn [List.find fst snd].
  repeat match goal with
         | |- context [isinstance e ?c] => destruct (isinstance e c)
         end; reflexivity.
Qed.

(** C3. When the strategy raises a transport exception where the
    configuration does not wrap exceptions, [_make_request] raises that
    same exception; where it does, and the strategy handles exceptions as
    [Http] does, [_make_request] raises the one error that the first kind
    of the priority list the exception belongs to decides: ReadTimeout,
    ConnectTimeout, ConnectionFailure, InvalidResponse, GenericTimeout,
    and Unexpected when it belongs to none. *)
Theorem make_request_transport_exception (self : Http.t) (st : HttpStrategy)
    (verb path content_type : str) (params files : value)
    (overrides : option (gmap string value))
    (headers : gmap string value) (body : value) (e : py_exception) :
  Http.__headers self content_type overrides = Return headers ->
  Http.__request_body content_type params files = Return body ->
  strategy_http_do st verb (Http.__full_path self path) headers body = Raise e ->
  isinstance e "Exception" = true ->
  let result :=
    Http._make_request self st verb path content_type params files overrides in
  (Configuration.wrap_http_exceptions (Http.config self) = false ->
   result = Raise (Python e)) /\
  (Configuration.wrap_http_exceptions (Http.config self) = true ->
   strategy_handle_exception st = Http.handle_exception ->
   result = Raise (Braintree (Spec.error_of_exception e))).
Proof.
  intros Hh Hb Hdo He result. subst result.
  unfold Http._make_request, Http.try_http_do.
  rewrite Hh, Hb. cbn [lift Py.bind]. rewrite Hdo, He.
  split.
  - intros ->. reflexivity.
  - intros -> ->. rewrite handle_exception_priority. reflexivity.
Qed.

(** C9. [handle_exception] raises for every exception, so the [try] block
    of [_make_request] never ends with [status] unbound: with the
    [handle_exception] of [Http], whatever [http_do] does and whatever the
    wrap-exceptions flag is, the block returns a status and a body or
    raises. *)
Theorem handle_exception_always_raises :
  (forall e, exists err, Http.handle_exception e = Raise (Braintree err)) /\
  (forall (self : Http.t) http_do verb full_path headers body,
     Http.try_http_do self
       {| strategy_http_do := http_do;
          strategy_handle_exception := Http.handle_exception |}
       verb full_path headers body
     <> Return None) /\
  (forall (self : Http.t) http_do verb path content_type params files
          overrides headers body e,
     Http.__headers self content_type overrides = Return headers ->
     Http.__request_body content_type params files = Return body ->
     http_do verb (Http.__full_path self path) headers body = Raise e ->
     isinstance e "Exception" = true ->
     Configuration.wrap_http_exceptions (Http.config self) = true ->
     exists err,
       Http.handle_exception e = Raise (Braintree err)
       /\ Http._make_request self
            {| strategy_http_do := http_do;
               strategy_handle_exception := Http.handle_exception |}
            verb path content_type params files overrides
          = Raise (Braintree err)).
Proof.
  split; [|split].
  - intros e. eexists. apply handle_exception_priority.
  - intros self http_do verb full_path headers body.
    unfold Http.try_http_do. cbn [strategy_http_do strategy_handle_exception].
    destruct (http_do verb full_path headers body) as [r | e]; [discriminate|].
    destruct (isinstance e "Exception"); [|discriminate].
    destruct (Configuration.wrap_http_exceptions (Http.config self));
      [|discriminate].
    rewrite handle_exception_priority. discriminate.
  - intros self http_do verb path content_type params files overrides
      headers body e Hh Hb Hdo He Hwrap.
    exists (Spec.error_of_exception e).
    split; [apply handle_exception_priority|].
    unfold Http._make_request, Http.try_http_do.
    rewrite Hh, Hb. cbn [lift Py.bind strategy_http_do strategy_handle_exception].
    rewrite Hdo, He, Hwrap, handle_exception_priority. reflexivity.
Qed.

(** ** The request body *)

Lemma is_None_spec (v : value) : is_None v = true <-> v = VNone.
Proof. destruct v; simpl; split; congruence. Qed.

(** C7, as the code has it. For the XML content type the body is the XML
    document of the params when the params are truthy (present and not
    empty) and the empty string when they are not; for any other content
    type it is the params as they are, with no serialization, when there
    are no files, and the pair of the params and the files when there are
    files, whether the content type is multipart or not. *)
Theorem request_body_cases (content_type : str) (params files : value) :
  (content_type = Http.ContentType.Xml -> truthy params = true ->
   Http.__request_body content_type params files
   = (document <- xml_from_dict params ;; Return (VStr document))) /\
  (content_type = Http.ContentType.Xml -> truthy params = false ->
   Http.__request_body content_type params files = Return (VStr "")) /\
  (content_type <> Http.ContentType.Xml -> files = VNone ->
   Http.__request_body content_type params files = Return params) /\
  (content_type <> Http.ContentType.Xml -> files <> VNone ->
   Http.__request_body content_type params files
   = Return (VTuple [params; files])).
Proof.
  unfold Http.__request_body.
  repeat split.
  - intros -> ->. reflexivity.
  - intros -> ->. reflexivity.
  - intros Hct%String.eqb_neq ->. rewrite Hct. reflexivity.
  - intros Hct%String.eqb_neq Hf. rewrite Hct.
    destruct (is_None files) eqn:E; [|reflexivity].
    apply is_None_spec in E. contradiction.
Qed.

(** ** TLS verification *)

(** The [verify] setting in general: the test reads the environment of the
    configuration, the certificate is that of the environment of the
    client. *)
Lemma http_do_verify_cases (self : Http.t) :
  (Environment_eq (Configuration.environment (Http.config self)) Development = true ->
   Http.http_do_verify self = VBool false) /\
  (Environment_eq (Configuration.environment (Http.config self)) Development = false ->
   Http.http_do_verify self = ssl_certificate (Http.self_environment self)).
Proof.
  unfold Http.http_do_verify. split; intros ->; reflexivity.
Qed.

(** [http_do] in terms of the request it sends. *)
Lemma http_do_sent (self : Http.t)
    (send : requests.Request -> outcome py_exception requests.Response)
    (verb path : str) (headers : gmap string value) (body data files : value) :
  Notion.unpack body = Return (data, files) ->
  Http.http_do self send verb path headers body
  = (response <-
       send (Notion.sent_request self verb (Http.__full_path self path)
               headers data files) ;;
     Return (response.(requests.status_code), Notion.received_body response)).
Proof.
  intros Hu. unfold Http.http_do. fold (Notion.unpack body).
  rewrite Hu. cbn [Py.bind]. fold (Notion.sent_request self verb
    (Http.__full_path self path) headers data files).
  destruct (send _) as [response | e]; cbn [Py.bind]; [|reflexivity].
  unfold Notion.received_body.
  destruct version_info as [major minor].
  destruct ((major =? 3) && (minor >? 5)); reflexivity.
Qed.

(** C8, as the code has it. For a client whose environment is the
    environment of its configuration, as it is when the constructor is
    given no environment: [http_do] gives the session one request, whose
    [verify] is [False] when that environment is Development and the
    [ssl_certificate] of that environment when it is any other, and
    returns the status and the body of the answer. So, where that
    certificate is truthy (the path of a CA bundle, or [True]),
    verification is off if and only if the environment is Development;
    where it is falsy, verification is off in that environment too. *)
Theorem http_do_verify_spec (self : Http.t) :
  Http.self_environment self = Configuration.environment (Http.config self) ->
  let env := Configuration.environment (Http.config self) in
  (Environment_eq env Development = true ->
   Http.http_do_verify self = VBool false) /\
  (Environment_eq env Development = false ->
   Http.http_do_verify self = ssl_certificate env) /\
  (truthy (ssl_certificate env) = true ->
   (Notion.verification_off (Http.http_do_verify self) = true
    <-> Environment_eq env Development = true)) /\
  (truthy (ssl_certificate env) = false ->
   Notion.verification_off (Http.http_do_verify self) = true) /\
  (forall send verb path headers body data files,
     Notion.unpack body = Return (data, files) ->
     Http.http_do self send verb path headers body
     = (response <-
          send {| requests.method := verb;
                  requests.url := Http.__full_path self path;
                  requests.headers := headers;
                  requests.data := data;
                  requests.files := files;
                  requests.verify :=
                    if Environment_eq env Development then VBool false
                    else ssl_certificate env;
                  requests.timeout :=
                    Configuration.timeout (Http.config self) |} ;;
        Return (response.(requests.status_code),
                Notion.received_body response))).
Proof.
  intros Henv env.
  destruct (http_do_verify_cases self) as [Hdev Hother].
  fold env in Hdev, Hother. rewrite Henv in Hother. fold env in Hother.
  assert (Hverify : Http.http_do_verify self
                    = if Environment_eq env Development then VBool false
                      else ssl_certificate env).
  { destruct (Environment_eq env Development); auto. }
  split; [exact Hdev|]. split; [exact Hother|].
  split; [|split].
  - intros Hcert. unfold Notion.verification_off. rewrite Hverify.
    destruct (Environment_eq env Development).
    + split; reflexivity.
    + rewrite Hcert. split; discriminate.
  - intros Hcert. unfold Notion.verification_off. rewrite Hverify.
    destruct (Environment_eq env Development); [reflexivity|].
    rewrite Hcert. reflexivity.
  - intros send verb path headers body data files Hu.
    rewrite (http_do_sent _ _ _ _ _ _ _ _ Hu).
    unfold Notion.sent_request. rewrite Hverify. reflexivity.
Qed.

Lemma init_environment (config : Configuration.t) :
  Http.self_environment (Http.__init__ config None)
  = Configuration.environment config.
Proof. reflexivity. Qed.

End Client_properties.

(** ** The properties on the sample gateway *)

Example error_of_status_rows :
  List.map (Spec.error_of_status None) [401; 403; 404; 408; 426; 429; 500; 503; 504]
  = [AuthenticationError; AuthorizationError None; NotFoundError;
     RequestTimeoutError; UpgradeRequiredError; TooManyRequestsError;
     ServerError; ServiceUnavailableError; GatewayTimeoutError].
Proof. reflexivity. Qed.

Example error_of_status_409 :
  Spec.error_of_status None 409
  = UnexpectedError (Message "Unexpected HTTP_RESPONSE 409").
Proof. reflexivity. Qed.

Lemma full_path_spec_witness :
  @Http.__full_path Sample.imports (Sample.client Sample.config_keys)
    "https://api.sandbox.braintreegateway.com:443/merchants/m/customers"
  = "https://api.sandbox.braintreegateway.com:443/merchants/m/customers"
  /\ @Http.__full_path Sample.imports (Sample.client Sample.config_keys)
       "/merchants/m/customers"
     = "https://api.sandbox.braintreegateway.com:443/merchants/m/customers".
Proof.
  pose proof (@full_path_spec Sample.imports (Sample.client Sample.config_keys)
                "https://api.sandbox.braintreegateway.com:443/merchants/m/customers")
    as [Hpre _].
  pose proof (@full_path_spec Sample.imports (Sample.client Sample.config_keys)
                "/merchants/m/customers") as [_ Hnot].
  split.
  - apply Hpre. left. exists "/merchants/m/customers". reflexivity.
  - apply Hnot; intros [t Ht]; vm_compute in Ht; discriminate.
Defined.

Lemma make_request_error_status_witness :
  let self := Sample.client Sample.config_keys in
  @Http.get Sample.imports self
    (Http.strategy self (Sample.respond 409 "conflict")) "/merchants/m"
  = Raise (Braintree (UnexpectedError (Message "Unexpected HTTP_RESPONSE 409"))).
Proof.
  intros self.
  apply (@make_request_error_status Sample.imports self
           (Http.strategy self (Sample.respond 409 "conflict"))
           "GET" "/merchants/m" Http.ContentType.Xml VNone VNone None
           (Sample.headers_of self Http.ContentType.Xml)
           (Sample.body_of Http.ContentType.Xml VNone VNone)
           409 (Bytes "conflict")).
  - reflexivity.
  - reflexivity.
  - reflexivity.
  - vm_compute. intros H; decompose [or] H; discriminate || contradiction.
Defined.

Lemma make_request_success_status_witness :
  let self := Sample.client Sample.config_keys in
  @Http.post Sample.imports self
    (Http.strategy self (Sample.respond 422 "<api-error-response/>"))
    "/merchants/m/customers" (VDict {[ "customer" := VDict ∅ ]})
  = Return (VDict {[ "xml" := VBytes "<api-error-response/>" ]}).
Proof.
  intros self.
  apply (@make_request_success_status Sample.imports self
           (Http.strategy self (Sample.respond 422 "<api-error-response/>"))
           "POST" "/merchants/m/customers" Http.ContentType.Xml
           (VDict {[ "customer" := VDict ∅ ]}) VNone None
           (Sample.headers_of self Http.ContentType.Xml)
           (Sample.body_of Http.ContentType.Xml
              (VDict {[ "customer" := VDict ∅ ]}) VNone)
           422 (Bytes "<api-error-response/>")).
  - reflexivity.
  - reflexivity.
  - reflexivity.
  - vm_compute. tauto.
  - reflexivity.
  - discriminate.
Defined.

(** A body of one no-break space is blank as the text of a response, for
    [str.strip] removes U+00A0, and is not blank as its bytes. *)
Example no_break_space_body :
  let self := Sample.client Sample.config_keys in
  let answering body :=
    {| strategy_http_do := fun _ _ _ _ => Return (200, body);
       strategy_handle_exception := Http.handle_exception |} in
  @Http.get Sample.imports self (answering (Text [160%N])) "/merchants/m"
  = Return (VDict ∅)
  /\ @Http.get Sample.imports self
       (answering (Bytes (String "160"%char ""))) "/merchants/m"
     = Return (VDict {[ "xml" := VBytes (String "160"%char "") ]}).
Proof. split; reflexivity. Qed.

Example unicode_spaces :
  List.filter is_unicode_space
    [8%N; 9%N; 13%N; 14%N; 27%N; 28%N; 32%N; 33%N; 133%N; 160%N; 5760%N;
     8191%N; 8192%N; 8202%N; 8203%N; 8232%N; 8233%N; 8239%N; 8287%N; 12288%N]
  = [9%N; 13%N; 28%N; 32%N; 133%N; 160%N; 5760%N; 8192%N; 8202%N; 8232%N;
     8233%N; 8239%N; 8287%N; 12288%N].
Proof. reflexivity. Qed.

Lemma make_request_403_message_witness :
  let self := Sample.client Sample.config_keys in
  @Http.get Sample.imports self
    (Http.strategy self (Sample.respond 403 "<message>forbidden</message>"))
    "/merchants/m"
  = Raise (Braintree (AuthorizationError None)).
Proof.
  intros self.
  apply (@make_request_403_message Sample.imports self
           (Http.strategy self (Sample.respond 403 "<message>forbidden</message>"))
           "GET" "/merchants/m" Http.ContentType.Xml VNone VNone None
           (Sample.headers_of self Http.ContentType.Xml)
           (Sample.body_of Http.ContentType.Xml VNone VNone)
           (Bytes "<message>forbidden</message>")).
  - reflexivity.
  - reflexivity.
  - reflexivity.
Defined.

(** C5, as stated, fails: the response of status 403 below has a message
    in its body, and the error that [_make_request] raises has none. *)
Lemma make_request_403_message_counterexample :
  let self := Sample.client Sample.config_keys in
  ~ exists message,
      @Http.get Sample.imports self
        (Http.strategy self (Sample.respond 403 "<message>forbidden</message>"))
        "/merchants/m"
      = Raise (Braintree (AuthorizationError (Some message))).
Proof.
  intros self [message Hm].
  vm_compute in Hm. discriminate.
Qed.

Lemma make_request_transport_exception_witness :
  let wrapping := Sample.client (Sample.with_wrap true Sample.config_keys) in
  let raw := Sample.client (Sample.with_wrap false Sample.config_keys) in
  @Http.get Sample.imports wrapping
    (Http.strategy wrapping (Sample.fail Sample.connect_timeout)) "/merchants/m"
  = Raise (Braintree (ConnectTimeoutError Sample.connect_timeout))
  /\ @Http.get Sample.imports raw
       (Http.strategy raw (Sample.fail Sample.connect_timeout)) "/merchants/m"
     = Raise (Python Sample.connect_timeout).
Proof.
  intros wrapping raw. split.
  - apply (@make_request_transport_exception Sample.imports wrapping
             (Http.strategy wrapping (Sample.fail Sample.connect_timeout))
             "GET" "/merchants/m" Http.ContentType.Xml VNone VNone None
             (Sample.headers_of wrapping Http.ContentType.Xml)
             (Sample.body_of Http.ContentType.Xml VNone VNone)
             Sample.connect_timeout);
      reflexivity.
  - apply (@make_request_transport_exception Sample.imports raw
             (Http.strategy raw (Sample.fail Sample.connect_timeout))
             "GET" "/merchants/m" Http.ContentType.Xml VNone VNone None
             (Sample.headers_of raw Http.ContentType.Xml)
             (Sample.body_of Http.ContentType.Xml VNone VNone)
             Sample.connect_timeout);
      reflexivity.
Defined.

Lemma handle_exception_always_raises_witness :
  let self := Sample.client (Sample.with_wrap true Sample.config_keys) in
  exists err,
    Http.handle_exception Sample.value_error = Raise (Braintree err)
    /\ @Http.get Sample.imports self
         (Http.strategy self (Sample.fail Sample.value_error)) "/merchants/m"
       = Raise (Braintree err).
Proof.
  intros self.
  destruct (@handle_exception_always_raises Sample.imports) as (_ & _ & Hraise).
  apply (Hraise self (Http.http_do self (Sample.fail Sample.value_error))
           "GET" "/merchants/m" Http.ContentType.Xml VNone VNone None
           (Sample.headers_of self Http.ContentType.Xml)
           (Sample.body_of Http.ContentType.Xml VNone VNone)
           Sample.value_error);
    reflexivity.
Defined.

Example error_of_exception_samples :
  List.map Spec.error_of_exception
    [Sample.read_timeout; Sample.connect_timeout; Sample.connection_error;
     Sample.http_error; Sample.plain_timeout; Sample.value_error]
  = [ReadTimeoutError Sample.read_timeout;
     ConnectTimeoutError Sample.connect_timeout;
     ConnectionError Sample.connection_error;
     InvalidResponseError Sample.http_error;
     TimeoutError Sample.plain_timeout;
     UnexpectedError (Cause Sample.value_error)].
Proof. reflexivity. Qed.

(** An exception that is not an [Exception] is not caught, whatever the
    flag is. *)
Example keyboard_interrupt_propagates :
  let self := Sample.client (Sample.with_wrap true Sample.config_keys) in
  @Http.get Sample.imports self
    (Http.strategy self (Sample.fail Sample.keyboard_interrupt)) "/merchants/m"
  = Raise (Python Sample.keyboard_interrupt).
Proof. reflexivity. Qed.

(** With a strategy whose [handle_exception] returns, the [try] block does
    end with [status] unbound, and reading it raises. *)
Example lenient_handler_falls_through :
  let self := Sample.client (Sample.with_wrap true Sample.config_keys) in
  @Http.try_http_do Sample.imports self
    (Sample.lenient_strategy Sample.read_timeout) "GET" "/merchants/m" ∅ VNone
  = Return None
  /\ @Http.get Sample.imports self
       (Sample.lenient_strategy Sample.read_timeout) "/merchants/m"
     = Raise (Python (UnboundLocalError
                "local variable 'status' referenced before assignment")).
Proof. split; reflexivity. Qed.

Lemma request_body_cases_witness :
  @Http.__request_body Sample.imports Http.ContentType.Xml
    (VDict {[ "customer" := VDict ∅ ]}) VNone
  = Return (VStr "<params/>")
  /\ @Http.__request_body Sample.imports Http.ContentType.Xml (VDict ∅) VNone
     = Return (VStr "")
  /\ @Http.__request_body Sample.imports Http.ContentType.Json
       (VStr "{}") VNone
     = Return (VStr "{}")
  /\ @Http.__request_body Sample.imports Http.ContentType.Multipart
       (VDict ∅) (VDict {[ "file" := VBytes "data" ]})
     = Return (VTuple [VDict ∅; VDict {[ "file" := VBytes "data" ]}]).
Proof.
  split; [|split; [|split]].
  - destruct (@request_body_cases Sample.imports Http.ContentType.Xml
                (VDict {[ "customer" := VDict ∅ ]}) VNone) as (Hxml & _).
    exact (Hxml eq_refl eq_refl).
  - destruct (@request_body_cases Sample.imports Http.ContentType.Xml
                (VDict ∅) VNone) as (_ & Hempty & _).
    exact (Hempty eq_refl eq_refl).
  - destruct (@request_body_cases Sample.imports Http.ContentType.Json
                (VStr "{}") VNone) as (_ & _ & Hparams & _).
    apply Hparams; [discriminate | reflexivity].
  - destruct (@request_body_cases Sample.imports Http.ContentType.Multipart
                (VDict ∅) (VDict {[ "file" := VBytes "data" ]}))
      as (_ & _ & _ & Hpair).
    apply Hpair; discriminate.
Defined.

(** C7, as stated, fails: with the JSON content type, which is neither XML
    nor multipart, and files present, the body is the pair and not the
    params. *)
Lemma request_body_counterexample :
  let content_type := Http.ContentType.Json in
  let params := VStr "{}" in
  let files := VDict {[ "file" := VBytes "data" ]} in
  content_type <> Http.ContentType.Xml
  /\ content_type <> Http.ContentType.Multipart
  /\ @Http.__request_body Sample.imports content_type params files
     = Return (VTuple [params; files])
  /\ @Http.__request_body Sample.imports content_type params files
     <> Return params.
Proof.
  intros content_type params files.
  repeat split; try discriminate.
Qed.

Lemma http_do_verify_spec_witness :
  @Http.http_do_verify Sample.imports
    (Sample.client (Sample.with_environment Sample.development Sample.config_keys))
  = VBool false
  /\ @Http.http_do_verify Sample.imports (Sample.client Sample.config_keys)
     = VStr "ssl/sandbox.ca.crt".
Proof.
  split.
  - destruct (@http_do_verify_spec Sample.imports
                (Sample.client
                   (Sample.with_environment Sample.development Sample.config_keys))
                eq_refl) as (Hdev & _).
    exact (Hdev eq_refl).
  - destruct (@http_do_verify_spec Sample.imports
                (Sample.client Sample.config_keys) eq_refl) as (_ & Hother & _).
    exact (Hother eq_refl).
Defined.

(** C8, as stated, fails whichever environment it is read with. A client
    of the production environment whose configuration is of the
    development environment sends with verification off; a client of the
    production environment whose configuration is of the sandbox
    environment verifies with the production certificate, which is not the
    certificate of the environment that the test read. *)
Lemma http_do_verify_counterexample :
  let off :=
    @Http.__init__ Sample.imports
      (Sample.with_environment Sample.development Sample.config_keys)
      (Some Sample.production) in
  let mixed :=
    @Http.__init__ Sample.imports Sample.config_keys (Some Sample.production) in
  (Http.http_do_verify off = VBool false
   /\ Sample.environment_eq (Http.self_environment off) Sample.development = false)
  /\ (Sample.environment_eq
        (Configuration.environment (Http.config mixed)) Sample.development = false
      /\ Http.http_do_verify mixed
         <> Sample.certificate (Configuration.environment (Http.config mixed))).
Proof.
  intros off mixed. repeat split; discriminate.
Qed.

(** ** Base64 and the Authorization header *)

Lemma append_cons (c : ascii) (s t : string) :
  String c s ++ t = String c (s ++ t).
Proof. reflexivity. Qed.

Lemma append_empty_r (s : string) : s ++ "" = s.
Proof.
  induction s as [|c s IH]; [reflexivity|].
  now rewrite append_cons, IH.
Qed.

Lemma take_drop (n : nat) (s : bytes) : substring 0 n s ++ drop n s = s.
Proof.
  revert s. induction n as [|n IH]; intros [|c s]; try reflexivity.
  simpl. now rewrite append_cons, IH.
Qed.

Lemma take_all (n : nat) (s : bytes) :
  (String.length s <= n)%nat -> substring 0 n s = s.
Proof.
  revert s. induction n as [|n IH]; intros [|c s]; simpl; trivial.
  - lia.
  - intros Hl. rewrite IH; [reflexivity | lia].
Qed.

Lemma drop_all (n : nat) (s : bytes) :
  (String.length s <= n)%nat -> drop n s = "".
Proof.
  revert s. induction n as [|n IH]; intros [|c s]; simpl; trivial.
  - lia.
  - intros Hl. apply IH. lia.
Qed.

Lemma length_take (n : nat) (s : bytes) :
  (n <= String.length s)%nat -> String.length (substring 0 n s) = n.
Proof.
  revert s. induction n as [|n IH]; intros [|c s]; simpl; trivial.
  - lia.
  - intros Hl. rewrite IH; [reflexivity | lia].
Qed.

Lemma length_drop (n : nat) (s : bytes) :
  String.length (drop n s) = (String.length s - n)%nat.
Proof.
  revert s. induction n as [|n IH]; intros [|c s]; simpl; trivial.
Qed.

Lemma substring_drop (n m l : nat) (s : bytes) :
  substring (n + m) l s = substring m l (drop n s).
Proof.
  revert s. induction n as [|n IH]; intros s; simpl; [reflexivity|].
  destruct s as [|c s].
  - destruct m, l; reflexivity.
  - apply IH.
Qed.

(** Whitespace-free text is left alone by [strip] and has no newline. *)
Lemma no_space_lstrip (s : bytes) : no_space s = true -> lstrip s = s.
Proof.
  destruct s as [|c s]; simpl; trivial.
  intros [Hc _]%andb_true_iff. apply negb_true_iff in Hc. now rewrite Hc.
Qed.

Lemma no_space_rstrip (s : bytes) : no_space s = true -> rstrip s = s.
Proof.
  induction s as [|c s IH]; simpl; trivial.
  intros [Hc Hs]%andb_true_iff. apply negb_true_iff in Hc.
  rewrite (IH Hs), Hc. destruct s; reflexivity.
Qed.

Lemma no_space_strip (s : bytes) : no_space s = true -> strip s = s.
Proof.
  intros Hs. unfold strip. rewrite (no_space_lstrip s Hs).
  apply no_space_rstrip, Hs.
Qed.

Lemma no_space_has_newline (s : bytes) :
  no_space s = true -> Spec.has_newline s = false.
Proof.
  induction s as [|c s IH]; simpl; trivial.
  intros [Hc Hs]%andb_true_iff. rewrite (IH Hs), orb_false_r.
  destruct (Ascii.eqb_spec c "010"%char) as [-> | Hne]; [discriminate | reflexivity].
Qed.

Lemma no_space_get (s : bytes) (i : nat) (c : ascii) :
  no_space s = true -> String.get i s = Some c -> is_space c = false.
Proof.
  revert i. induction s as [|x s IH]; intros i; simpl; [discriminate|].
  intros [Hx Hs]%andb_true_iff. destruct i as [|i].
  - intros [= <-]. now apply negb_true_iff.
  - apply IH, Hs.
Qed.

Lemma b64_char_plain (n : N) : is_space (Py.b64_char n) = false.
Proof.
  unfold Py.b64_char.
  destruct (String.get (N.to_nat n) Py.b64_alphabet) as [c|] eqn:E.
  - apply (no_space_get Py.b64_alphabet (N.to_nat n) c); [reflexivity | exact E].
  - reflexivity.
Qed.

(** Induction on a byte string three bytes at a time. *)
Lemma triple_induction (P : bytes -> Prop) :
  P "" ->
  (forall a, P (String a "")) ->
  (forall a b, P (String a (String b ""))) ->
  (forall a b c s, P s -> P (String a (String b (String c s)))) ->
  forall s, P s.
Proof.
  intros H0 H1 H2 H3.
  assert (Hall : forall s, P s /\ (forall a, P (String a s))
                           /\ (forall a b, P (String a (String b s)))).
  { induction s as [|c s (IH0 & IH1 & IH2)].
    - repeat split; auto.
    - repeat split; auto. }
  intros s. apply Hall.
Qed.

Lemma b64encode_plain (s : bytes) : no_space (Py.b64encode s) = true.
Proof.
  induction s as [| a | a b | a b c s IH] using triple_induction.
  - reflexivity.
  - cbn [Py.b64encode Py.b64_quad no_space].
    rewrite !b64_char_plain. reflexivity.
  - cbn [Py.b64encode Py.b64_quad no_space].
    rewrite !b64_char_plain. reflexivity.
  - cbn [Py.b64encode Py.b64_quad no_space].
    rewrite !b64_char_plain, IH. reflexivity.
Qed.

(** The encoding of a text whose first part is a whole number of groups
    of three bytes is the encoding of the parts, one after the other. *)
Lemma b64encode_app (k : nat) (a b : bytes) :
  String.length a = (3 * k)%nat ->
  Py.b64encode (a ++ b) = Py.b64encode a ++ Py.b64encode b.
Proof.
  revert a. induction k as [|k IH]; intros a Hlen.
  - destruct a; [reflexivity | simpl in Hlen; lia].
  - destruct a as [|x [|y [|z a]]]; simpl in Hlen; try lia.
    change (String x (String y (String z a)) ++ b)
      with (String x (String y (String z (a ++ b)))).
    cbn [Py.b64encode Py.b64_quad].
    rewrite (IH a) by lia. reflexivity.
Qed.

Lemma startswith_empty (s : str) : startswith s "" = true.
Proof. destruct s; reflexivity. Qed.

(** [replace] of the newline by nothing. *)
Lemma replace_newline_cons (c : ascii) (s : bytes) :
  Py.replace (String c s) Http.newline ""
  = if Ascii.eqb "010"%char c then Py.replace s Http.newline ""
    else String c (Py.replace s Http.newline "").
Proof.
  unfold Py.replace, Http.newline.
  cbn [Py.replace_from Py.startswith String.length Nat.sub].
  rewrite startswith_empty, andb_true_r.
  destruct (Ascii.eqb "010"%char c); reflexivity.
Qed.

Lemma replace_newline_app (a b : bytes) :
  Py.replace (a ++ b) Http.newline ""
  = Py.replace a Http.newline "" ++ Py.replace b Http.newline "".
Proof.
  induction a as [|c a IH]; [reflexivity|].
  rewrite append_cons, !replace_newline_cons, IH.
  destruct (Ascii.eqb "010"%char c); reflexivity.
Qed.

Lemma replace_newline_plain (s : bytes) :
  Spec.has_newline s = false -> Py.replace s Http.newline "" = s.
Proof.
  induction s as [|c s IH]; [reflexivity|].
  simpl. intros [Hc Hs]%orb_false_iff.
  rewrite replace_newline_cons, Ascii.eqb_sym, Hc, (IH Hs). reflexivity.
Qed.

(** [encodebytes], chunk by chunk. *)
Lemma concat_empty_cons (x : string) (xs : list string) :
  String.concat "" (x :: xs) = x ++ String.concat "" xs.
Proof.
  destruct xs as [|y ys]; [|reflexivity].
  simpl. now rewrite append_empty_r.
Qed.

Lemma range_step_cons (n : nat) :
  (0 < n)%nat ->
  Py.range_step n Py.MAXBINSIZE
  = 0%nat :: List.map (fun i => (Py.MAXBINSIZE + i)%nat)
                      (Py.range_step (n - Py.MAXBINSIZE) Py.MAXBINSIZE).
Proof.
  intros Hn. unfold Py.range_step, Py.MAXBINSIZE.
  assert (Hdiv : ((n + 57 - 1) / 57 = S ((n - 57 + 57 - 1) / 57))%nat).
  { destruct (Nat.le_gt_cases n 57) as [Hle | Hgt].
    - replace (n - 57)%nat with 0%nat by lia.
      change ((0 + 57 - 1) / 57)%nat with 0%nat.
      symmetry. apply Nat.div_unique with (r := (n - 1)%nat); lia.
    - replace (n + 57 - 1)%nat with ((n - 57 + 57 - 1) + 1 * 57)%nat by lia.
      rewrite Nat.div_add by lia. lia. }
  rewrite Hdiv. cbn [seq List.map]. f_equal.
  rewrite <- seq_shift, !List.map_map.
  apply List.map_ext. intros k. lia.
Qed.

Lemma encodebytes_cons (c : ascii) (s : bytes) :
  Py.encodebytes (String c s)
  = Py.b2a_base64 (substring 0 Py.MAXBINSIZE (String c s))
    ++ Py.encodebytes (drop Py.MAXBINSIZE (String c s)).
Proof.
  unfold Py.encodebytes at 1.
  rewrite range_step_cons by (simpl; lia).
  cbn [List.map]. rewrite concat_empty_cons. f_equal.
  unfold Py.encodebytes. rewrite length_drop, List.map_map.
  f_equal. apply List.map_ext. intros i.
  now rewrite substring_drop.
Qed.

(** Without its newlines, the output of [encodebytes] is the base64 of
    the input. *)
Lemma encodebytes_without_newlines (s : bytes) :
  Py.replace (Py.encodebytes s) Http.newline "" = Py.b64encode s.
Proof.
  remember (String.length s) as n eqn:Hn.
  assert (Hle : (String.length s <= n)%nat) by lia. clear Hn.
  revert s Hle. induction n as [|n IH]; intros s Hle.
  - destruct s; [reflexivity | simpl in Hle; lia].
  - destruct s as [|c s]; [reflexivity|].
    rewrite encodebytes_cons. unfold Py.b2a_base64.
    rewrite !replace_newline_app.
    rewrite (replace_newline_plain (Py.b64encode _))
      by apply no_space_has_newline, b64encode_plain.
    change (Py.replace (String "010"%char "") Http.newline "") with "".
    rewrite IH by (rewrite length_drop; simpl in *; unfold Py.MAXBINSIZE; lia).
    rewrite append_empty_r.
    destruct (Nat.le_gt_cases Py.MAXBINSIZE (String.length (String c s)))
      as [Hlong | Hshort].
    + rewrite <- (b64encode_app 19) by (apply length_take, Hlong).
      now rewrite take_drop.
    + rewrite take_all, drop_all by lia.
      apply append_empty_r.
Qed.

Lemma authorization_value (data : bytes) :
  strip (Py.replace (Py.encodebytes data) Http.newline "") = Py.b64encode data.
Proof.
  rewrite encodebytes_without_newlines.
  apply no_space_strip, b64encode_plain.
Qed.

Lemma b64encode_stripped (data : bytes) : Spec.stripped (Py.b64encode data).
Proof.
  split.
  - apply no_space_has_newline, b64encode_plain.
  - apply no_space_rstrip, b64encode_plain.
Qed.

Section Authorization.
Context `{Imports}.

(** C4, as the code has it. One scheme gives the Authorization header, the
    first that applies of client credentials, access token and key pair.
    Where the credentials of that scheme are set and ASCII, the value is
    "Basic " and the base64 of [client_id:client_secret], or "Bearer " and
    the access token, or "Basic " and the base64 of
    [public_key:private_key]. In the two Basic cases the newlines of the
    encoder's output are removed and the text is trimmed, so the base64
    text has no newline and no whitespace at its end; in the Bearer case
    the access token is taken as it is. *)
Theorem authorization_header_spec (self : Http.t) :
  let config := Http.config self in
  (Configuration.has_client_credentials config = true ->
   forall id secret,
     Configuration.client_id config = Some id ->
     Configuration.client_secret config = Some secret ->
     is_ascii id = true -> is_ascii secret = true ->
     Http.__authorization_header self
     = Return ("Basic " ++ Py.b64encode (id ++ ":" ++ secret))) /\
  (Configuration.has_client_credentials config = false ->
   Configuration.has_access_token config = true ->
   forall token,
     Configuration.access_token config = Some token ->
     is_ascii token = true ->
     Http.__authorization_header self = Return ("Bearer " ++ token)) /\
  (Configuration.has_client_credentials config = false ->
   Configuration.has_access_token config = false ->
   forall public private,
     Configuration.public_key config = Some public ->
     Configuration.private_key config = Some private ->
     is_ascii public = true -> is_ascii private = true ->
     Http.__authorization_header self
     = Return ("Basic " ++ Py.b64encode (public ++ ":" ++ private))) /\
  (forall data, Spec.stripped (Py.b64encode data)).
Proof.
  intros config. unfold Http.__authorization_header. fold config.
  repeat split.
  - intros -> id secret -> -> Hid Hsecret.
    unfold Http.encode_attr, Py.encode_ascii. rewrite Hid, Hsecret.
    cbn [Py.bind]. now rewrite authorization_value.
  - intros -> -> token -> Htoken.
    unfold Http.encode_attr, Py.encode_ascii. rewrite Htoken. reflexivity.
  - intros -> -> public private -> -> Hpublic Hprivate.
    unfold Http.encode_attr, Py.encode_ascii. rewrite Hpublic, Hprivate.
    cbn [Py.bind]. now rewrite authorization_value.
  - apply b64encode_stripped.
  - apply b64encode_stripped.
Qed.

End Authorization.

(** The output of [encodebytes] for an input of more than one line. *)
Example encodebytes_two_lines :
  Py.encodebytes
    "aaaaaaaaaaaaaaaaaaaaaaaaaaaaaaaaaaaaaaaaaaaaaaaaaaaaaaaaaaaa"
  = "YWFhYWFhYWFhYWFhYWFhYWFhYWFhYWFhYWFhYWFhYWFhYWFhYWFhYWFhYWFhYWFhYWFhYWFhYWFh"
    ++ Http.newline ++ "YWFh" ++ Http.newline.
Proof. reflexivity. Qed.

Lemma authorization_header_spec_witness :
  @Http.__authorization_header Sample.imports
    (Sample.client
       (Sample.with_client_credentials "client_id" "client_secret"
          (Sample.with_access_token "access_token" Sample.config_keys)))
  = Return "Basic Y2xpZW50X2lkOmNsaWVudF9zZWNyZXQ="
  /\ @Http.__authorization_header Sample.imports
       (Sample.client (Sample.with_access_token "access_token" Sample.config_keys))
     = Return "Bearer access_token"
  /\ @Http.__authorization_header Sample.imports (Sample.client Sample.config_keys)
     = Return "Basic cHVibGljX2tleTpwcml2YXRlX2tleQ==".
Proof.
  split; [|split].
  - destruct (@authorization_header_spec Sample.imports
                (Sample.client
                   (Sample.with_client_credentials "client_id" "client_secret"
                      (Sample.with_access_token "access_token" Sample.config_keys))))
      as (Hclient & _).
    exact (Hclient eq_refl "client_id" "client_secret"
             eq_refl eq_refl eq_refl eq_refl).
  - destruct (@authorization_header_spec Sample.imports
                (Sample.client
                   (Sample.with_access_token "access_token" Sample.config_keys)))
      as (_ & Htoken & _).
    exact (Htoken eq_refl eq_refl "access_token" eq_refl eq_refl).
  - destruct (@authorization_header_spec Sample.imports
                (Sample.client Sample.config_keys)) as (_ & _ & Hkeys & _).
    exact (Hkeys eq_refl eq_refl "public_key" "private_key"
             eq_refl eq_refl eq_refl eq_refl).
Defined.

(** C4, as stated, fails in the access-token case: the newline and the
    space at the end of the token below are in the header. *)
Lemma authorization_header_counterexample :
  let token := "access_token" ++ Http.newline ++ " " in
  let self :=
    Sample.client (Sample.with_access_token token Sample.config_keys) in
  exists value,
    @Http.__authorization_header Sample.imports self = Return value
    /\ value = "Bearer " ++ token
    /\ Spec.has_newline value = true
    /\ rstrip value <> value.
Proof.
  intros token self. eexists. split; [reflexivity|].
  split; [reflexivity|]. split; [reflexivity|].
  vm_compute. discriminate.
Qed.

(** ** BusinessDetails *)

Section Business_details.
Context `{BusinessDetails.Imports}.

(** C10. For every attributes mapping for which the initialiser of the
    base class and the constructor of [AddressDetails] return, the
    constructor of [BusinessDetails] returns, and the [address_details] of
    the object is the [AddressDetails] built from the value of the
    ["address"] key, or from the empty mapping when the key is absent,
    whatever the base class had set [address_details] to; the other
    attributes are those that the base class set. *)
Theorem business_details_address_details (d base : gmap string value)
    (address_details : value) :
  BusinessDetails.AttributeGetter__init__ ∅ (VDict d) = Return base ->
  BusinessDetails.AddressDetails (default (VDict ∅) (d !! "address"))
    = Return address_details ->
  exists self,
    BusinessDetails.__init__ (VDict d) = Return self
    /\ self !! "address_details" = Some address_details
    /\ (forall key, key <> "address_details" -> self !! key = base !! key).
Proof.
  intros Hbase Haddress.
  exists (<["address_details" := address_details]> base).
  split; [|split].
  - unfold BusinessDetails.__init__, BusinessDetails.get.
    rewrite Hbase. cbn [Py.bind].
    destruct (d !! "address"); cbn [default from_option id] in Haddress;
      rewrite Haddress; reflexivity.
  - apply lookup_insert_eq.
  - intros key Hkey. apply lookup_insert_ne. congruence.
Qed.

End Business_details.

Lemma business_details_address_details_witness :
  let address : gmap string value := {[ "locality" := VStr "Chicago" ]} in
  let d : gmap string value :=
    <["address" := VDict address]>
      (<["address_details" := VStr "stale"]>
         {[ "legal_name" := VStr "Acme" ]}) in
  exists self,
    @BusinessDetails.__init__ Sample.business_imports (VDict d) = Return self
    /\ self !! "address_details" = Some (VObject "AddressDetails" address)
    /\ (forall key, key <> "address_details" -> self !! key = (d ∪ ∅) !! key).
Proof.
  intros address d.
  apply (@business_details_address_details Sample.business_imports
           d (d ∪ ∅) (VObject "AddressDetails" address)).
  - reflexivity.
  - vm_compute. reflexivity.
Defined.

(** Without an ["address"] key the [AddressDetails] is built from the
    empty mapping. *)
Example business_details_no_address :
  match @BusinessDetails.__init__ Sample.business_imports
          (VDict {[ "address_details" := VStr "stale" ]}) with
  | Return self => self !! "address_details"
  | Raise _ => None
  end = Some (VObject "AddressDetails" ∅).
Proof. vm_compute. reflexivity. Qed.

(** * Further properties of the transport client *)

(** ** The request URL, again *)

Lemma startswith_app (p t : str) : startswith (p ++ t) p = true.
Proof. apply startswith_spec. exists t. reflexivity. Qed.

Section More_client_properties.
Context `{Imports}.

(** The resolved URL passes the test of [__full_path], and a URL that
    passes it is kept. *)
Lemma full_path_passes (self : Http.t) (path : str) :
  startswith (Http.__full_path self path)
    (Configuration.base_url (Http.config self))
  || startswith (Http.__full_path self path)
       (Configuration.graphql_base_url (Http.config self)) = true.
Proof.
  unfold Http.__full_path.
  destruct (startswith path (Configuration.base_url (Http.config self))
            || startswith path (Configuration.graphql_base_url (Http.config self)))
    eqn:E.
  - exact E.
  - rewrite startswith_app. reflexivity.
Qed.

Lemma full_path_kept (self : Http.t) (path : str) :
  startswith path (Configuration.base_url (Http.config self))
  || startswith path (Configuration.graphql_base_url (Http.config self)) = true ->
  Http.__full_path self path = path.
Proof. unfold Http.__full_path. intros ->. reflexivity. Qed.

(** X1. Resolving a URL that is already resolved changes nothing: the
    second [__full_path], which [http_do] applies to the URL that
    [_make_request] resolved, is the identity there. *)
Theorem full_path_idempotent (self : Http.t) (path : str) :
  Http.__full_path self (Http.__full_path self path)
  = Http.__full_path self path.
Proof.
  apply full_path_kept.
  apply full_path_passes.
Qed.

(** X2. The resolved URL always lies under the base URL or under the
    GraphQL base URL of the configuration. *)
Theorem full_path_under_base (self : Http.t) (path : str) :
  Spec.starts_with (Http.__full_path self path)
    (Configuration.base_url (Http.config self))
  \/ Spec.starts_with (Http.__full_path self path)
       (Configuration.graphql_base_url (Http.config self)).
Proof.
  pose proof (full_path_passes self path) as Hp.
  apply orb_true_iff in Hp.
  destruct Hp as [Hp | Hp]; [left | right]; apply startswith_spec, Hp.
Qed.

(** ** Headers *)

(** X3. A header override wins: every key of [header_overrides] has the
    value of the override in the headers of the request, the
    Authorization and the Content-type included. *)
Theorem headers_override_wins (self : Http.t) (content_type : str)
    (overrides headers : gmap string value) (key : string) (v : value) :
  Http.__headers self content_type (Some overrides) = Return headers ->
  overrides !! key = Some v ->
  headers !! key = Some v.
Proof.
  unfold Http.__headers. intros Hh Hk.
  destruct (Http.__authorization_header self) as [authorization | e];
    cbn [Py.bind] in Hh; [|discriminate].
  injection Hh as <-. cbn [default from_option id].
  apply lookup_union_Some_l, Hk.
Qed.

(** X4. Where there is no override for a key, the headers are the five
    fixed ones (Accept, Authorization, User-Agent, Accept-Encoding,
    X-ApiVersion), a Content-type of application/xml exactly when the
    content type of the request is XML, and nothing else: a multipart or
    JSON request gets no Content-type from [__headers]. *)
Theorem headers_defaults (self : Http.t) (content_type : str)
    (overrides : option (gmap string value)) (headers : gmap string value)
    (authorization : bytes) (key : string) :
  Http.__authorization_header self = Return authorization ->
  Http.__headers self content_type overrides = Return headers ->
  default ∅ overrides !! key = None ->
  headers !! key = Notion.default_header content_type authorization key.
Proof.
  unfold Http.__headers. intros Ha Hh Hk. rewrite Ha in Hh.
  cbn [Py.bind] in Hh. injection Hh as <-.
  rewrite lookup_union_r by exact Hk.
  unfold Notion.default_header.
  repeat match goal with
         | |- context [String.eqb key ?name] =>
             destruct (String.eqb_spec key name) as [-> | ?]
         end;
    try (destruct (String.eqb content_type Http.ContentType.Xml));
    simplify_map_eq; reflexivity.
Qed.

End More_client_properties.

(** ** Credentials that cannot be encoded *)

Lemma str_of_int_inj (a b : Z) : str_of_int a = str_of_int b -> a = b.
Proof.
  unfold str_of_int. intros Heq.
  assert (Hnn : forall z, Z.to_int z <> Decimal.Pos Decimal.Nil
                          /\ Z.to_int z <> Decimal.Neg Decimal.Nil).
  { intros [|p|p]; cbn [Z.to_int]; split; try discriminate;
      intros [= Hp]; exact (DecimalPos.Unsigned.to_uint_nonnil p Hp). }
  assert (Hint : Some (Z.to_int a) = Some (Z.to_int b)).
  { rewrite <- (NilZero.isi (Z.to_int a)) by apply Hnn.
    rewrite <- (NilZero.isi (Z.to_int b)) by apply Hnn.
    now rewrite Heq. }
  injection Hint as Hint.
  rewrite <- (DecimalZ.of_to a), <- (DecimalZ.of_to b). now rewrite Hint.
Qed.

Section Failure_properties.
Context `{Imports}.

(** [__authorization_header] returns when the credentials it reads are all
    usable, and raises AttributeError or UnicodeEncodeError when one is
    not. *)
Lemma authorization_header_cases (self : Http.t) :
  (forallb Notion.usable (Notion.selected_credentials (Http.config self)) = true
   /\ exists v, Http.__authorization_header self = Return v)
  \/ (forallb Notion.usable (Notion.selected_credentials (Http.config self)) = false
      /\ exists e, Http.__authorization_header self = Raise e
                   /\ isinstance e "Exception" = true
                   /\ (isinstance e "AttributeError" = true
                       \/ isinstance e "UnicodeEncodeError" = true)).
Proof.
  unfold Http.__authorization_header, Notion.selected_credentials.
  destruct (Configuration.has_client_credentials (Http.config self));
    [|destruct (Configuration.has_access_token (Http.config self))];
    repeat match goal with
           | |- context [Http.encode_attr ?c] =>
               let s := fresh "s" in
               destruct c as [s|];
               cbn [Http.encode_attr Notion.usable forallb Py.bind andb];
               [unfold Py.encode_ascii; destruct (is_ascii s);
                cbn [Py.bind andb]|]
           end;
    cbn [Py.bind andb forallb Notion.usable];
    first [ left; split; [reflexivity | eexists; reflexivity]
          | right; split; [reflexivity|];
            eexists; split; [reflexivity|]; split; [reflexivity|];
            first [left; reflexivity | right; reflexivity] ].
Qed.

(** X5. [__authorization_header] returns a value if and only if every
    credential of the selected scheme is set and ASCII; when it raises,
    the exception is an AttributeError (a credential is [None]) or a
    UnicodeEncodeError (a credential is not ASCII). *)
Theorem authorization_header_returns_iff (self : Http.t) :
  ((exists v, Http.__authorization_header self = Return v)
   <-> forallb Notion.usable
         (Notion.selected_credentials (Http.config self)) = true)
  /\ (forall e,
        Http.__authorization_header self = Raise e ->
        isinstance e "AttributeError" = true
        \/ isinstance e "UnicodeEncodeError" = true).
Proof.
  destruct (authorization_header_cases self)
    as [[Hall [v Hv]] | [Hnot (e & He & _ & Hkind)]].
  - split.
    + split; [intros _; exact Hall | intros _; exists v; exact Hv].
    + intros e He. rewrite Hv in He. discriminate.
  - split.
    + split.
      * intros [v Hv]. rewrite He in Hv. discriminate.
      * intros Hall. rewrite Hall in Hnot. discriminate.
    + intros e' He'. rewrite He in He'. injection He' as <-. exact Hkind.
Qed.

(** X6. With a credential of the selected scheme unset or not ASCII, every
    request fails before anything is sent: [_make_request] raises the
    AttributeError or UnicodeEncodeError itself, for every strategy, verb,
    path and body, and also where the configuration wraps exceptions. *)
Theorem unusable_credentials_fail_every_request (self : Http.t) :
  forallb Notion.usable (Notion.selected_credentials (Http.config self)) = false ->
  exists e,
    (isinstance e "AttributeError" = true
     \/ isinstance e "UnicodeEncodeError" = true)
    /\ forall st verb path content_type params files overrides,
         Http._make_request self st verb path content_type params files overrides
         = Raise (Python e).
Proof.
  intros Hnot.
  destruct (authorization_header_cases self)
    as [[Hall _] | [_ (e & He & _ & Hkind)]].
  { rewrite Hall in Hnot. discriminate. }
  exists e. split; [exact Hkind|].
  intros st verb path content_type params files overrides.
  unfold Http._make_request, Http.__headers. rewrite He. reflexivity.
Qed.

(** ** Exceptions that pass through *)

(** X8. An exception of the strategy that is not an [Exception] (a
    KeyboardInterrupt, a SystemExit) is never caught: it leaves
    [_make_request] as it is, whatever the wrap-exceptions flag and the
    [handle_exception] of the strategy are. *)
Theorem base_exception_not_caught (self : Http.t) (st : HttpStrategy)
    (verb path content_type : str) (params files : value)
    (overrides : option (gmap string value))
    (headers : gmap string value) (body : value) (e : py_exception) :
  Http.__headers self content_type overrides = Return headers ->
  Http.__request_body content_type params files = Return body ->
  strategy_http_do st verb (Http.__full_path self path) headers body = Raise e ->
  isinstance e "Exception" = false ->
  Http._make_request self st verb path content_type params files overrides
  = Raise (Python e).
Proof.
  intros Hh Hb Hdo He.
  unfold Http._make_request, Http.try_http_do.
  rewrite Hh, Hb. cbn [lift Py.bind]. rewrite Hdo, He. reflexivity.
Qed.

(** X9. A strategy whose [handle_exception] returns instead of raising
    leaves [status] unbound: where the configuration wraps exceptions and
    the strategy raises an [Exception] that its handler lets pass,
    [_make_request] raises UnboundLocalError. *)
Theorem returning_handler_unbound_status (self : Http.t) (st : HttpStrategy)
    (verb path content_type : str) (params files : value)
    (overrides : option (gmap string value))
    (headers : gmap string value) (body : value) (e : py_exception) :
  Http.__headers self content_type overrides = Return headers ->
  Http.__request_body content_type params files = Return body ->
  strategy_http_do st verb (Http.__full_path self path) headers body = Raise e ->
  isinstance e "Exception" = true ->
  Configuration.wrap_http_exceptions (Http.config self) = true ->
  strategy_handle_exception st e = Return tt ->
  exists unbound,
    Http._make_request self st verb path content_type params files overrides
    = Raise (Python unbound)
    /\ isinstance unbound "UnboundLocalError" = true.
Proof.
  intros Hh Hb Hdo He Hwrap Hhandler.
  eexists. split.
  - unfold Http._make_request, Http.try_http_do.
    rewrite Hh, Hb. cbn [lift Py.bind]. rewrite Hdo, He, Hwrap, Hhandler.
    reflexivity.
  - reflexivity.
Qed.

End Failure_properties.

(** ** The status table, again *)

(** X10. [raise_exception_from_status] uses its message for status 403
    only, and raises for the success statuses too: called with 200, 201,
    204 or 422 it raises Unexpected with the status in the message. *)
Theorem raise_exception_from_status_edges (status : Z) (message : option str) :
  (status <> 403 ->
   Http.raise_exception_from_status status message
   = Http.raise_exception_from_status status None)
  /\ (In status Spec.success_statuses ->
      Http.raise_exception_from_status status message
      = Raise (Braintree (UnexpectedError
                 (Message ("Unexpected HTTP_RESPONSE " ++ str_of_int status))))).
Proof.
  split.
  - intros Hne. unfold Http.raise_exception_from_status.
    destruct (Z.eqb_spec status 403); [contradiction | reflexivity].
  - unfold Spec.success_statuses. cbn [In].
    intros [<- | [<- | [<- | [<- | []]]]]; reflexivity.
Qed.

(** X11. The error that [raise_exception_from_status] raises tells the
    status: two statuses for which it raises the same error are the same
    status. *)
Theorem raise_exception_from_status_inj (s1 s2 : Z) (m1 m2 : option str) :
  Http.raise_exception_from_status s1 m1 = Http.raise_exception_from_status s2 m2 ->
  s1 = s2.
Proof.
  unfold Http.raise_exception_from_status.
  repeat match goal with
         | |- context [?a =? ?b] =>
             destruct (Z.eqb_spec a b); [subst a|]
         end;
    intros Heq; try reflexivity; try discriminate.
  injection Heq as Heq. apply str_of_int_inj.
  revert Heq. apply String.app_inj.
Qed.

(** X12. The error that [handle_exception] raises holds the exception it
    was given, whichever of the six kinds it is. *)
Theorem handle_exception_keeps_cause (e : py_exception) :
  exists err,
    Http.handle_exception e = Raise (Braintree err)
    /\ Notion.cause err = Some e.
Proof.
  unfold Http.handle_exception.
  repeat match goal with
         | |- context [isinstance e ?c] => destruct (isinstance e c)
         end;
    eexists; split; reflexivity.
Qed.

(** ** What is sent *)

Section Sending.
Context `{Imports}.

(** With [Http] as its own strategy, [_make_request] gives the session one
    request and makes its result of the answer. *)
Lemma make_request_own (self : Http.t)
    (send : requests.Request -> outcome py_exception requests.Response)
    (verb path content_type : str) (params files : value)
    (overrides : option (gmap string value))
    (headers : gmap string value) (body data sent_files : value) :
  Http.__headers self content_type overrides = Return headers ->
  Http.__request_body content_type params files = Return body ->
  Notion.unpack body = Return (data, sent_files) ->
  Http._make_request self (Http.strategy self send)
    verb path content_type params files overrides
  = Notion.result_of_answer self content_type
      (send (Notion.sent_request self verb (Http.__full_path self path)
               headers data sent_files)).
Proof.
  intros Hh Hb Hu.
  unfold Http._make_request, Http.try_http_do, Http.strategy.
  rewrite Hh, Hb. cbn [lift Py.bind strategy_http_do strategy_handle_exception].
  rewrite (http_do_sent _ _ _ _ _ _ _ _ Hu).
  rewrite (full_path_kept self (Http.__full_path self path))
    by apply full_path_passes.
  destruct (send _) as [response | e];
    cbn [Py.bind Notion.result_of_answer].
  - unfold Http.is_error_status.
    destruct (existsb (Z.eqb (requests.status_code response))
                Spec.success_statuses) eqn:Es;
      unfold Spec.success_statuses in Es; rewrite Es; cbn [negb].
    + rewrite payload_strip_length_zero. reflexivity.
    + rewrite raise_exception_from_status_table. reflexivity.
  - destruct (isinstance e "Exception"); cbn [andb]; [|reflexivity].
    destruct (Configuration.wrap_http_exceptions (Http.config self));
      [|reflexivity].
    rewrite handle_exception_priority. reflexivity.
Qed.

(** So it depends on the session through its answer to that request. *)
Lemma make_request_sends (self : Http.t)
    (send1 send2 : requests.Request -> outcome py_exception requests.Response)
    (verb path content_type : str) (params files : value)
    (overrides : option (gmap string value))
    (headers : gmap string value) (body data sent_files : value) :
  Http.__headers self content_type overrides = Return headers ->
  Http.__request_body content_type params files = Return body ->
  Notion.unpack body = Return (data, sent_files) ->
  send1 (Notion.sent_request self verb (Http.__full_path self path)
           headers data sent_files)
  = send2 (Notion.sent_request self verb (Http.__full_path self path)
             headers data sent_files) ->
  Http._make_request self (Http.strategy self send1)
    verb path content_type params files overrides
  = Http._make_request self (Http.strategy self send2)
      verb path content_type params files overrides.
Proof.
  intros Hh Hb Hu Hsend.
  rewrite !(make_request_own _ _ _ _ _ _ _ _ _ _ _ _ Hh Hb Hu).
  rewrite Hsend. reflexivity.
Qed.

(** X13. With [Http] as its own strategy, one request reaches the
    session, and the result of [_make_request] depends on the session
    through the answer to that request alone. The request has the verb,
    the resolved URL (resolved twice, to the same URL), the headers, the
    [verify] setting and the timeout of the configuration; its data is the
    XML document for the XML content type and the params as they are for
    any other, and it has files for a content type other than XML only.
    (Params that are themselves a tuple, with no files, are left out:
    [http_do] takes such a body for a pair.) *)
Theorem own_strategy_request (self : Http.t)
    (verb path content_type : str) (params files : value)
    (overrides : option (gmap string value))
    (headers : gmap string value) (body : value) :
  Http.__headers self content_type overrides = Return headers ->
  Http.__request_body content_type params files = Return body ->
  (content_type = Http.ContentType.Xml \/ files <> VNone
   \/ forall l, params <> VTuple l) ->
  let xml := String.eqb content_type Http.ContentType.Xml in
  let request :=
    Notion.sent_request self verb (Http.__full_path self path) headers
      (if xml then body else params) (if xml then VNone else files) in
  forall send1 send2,
    send1 request = send2 request ->
    Http._make_request self (Http.strategy self send1)
      verb path content_type params files overrides
    = Http._make_request self (Http.strategy self send2)
        verb path content_type params files overrides.
Proof.
  intros Hh Hb Hshape xml request send1 send2 Hsend. subst xml request.
  apply (make_request_sends self send1 send2 verb path content_type params
           files overrides headers body
           (if String.eqb content_type Http.ContentType.Xml then body else params)
           (if String.eqb content_type Http.ContentType.Xml then VNone else files)
           Hh Hb); [|exact Hsend].
  unfold Http.__request_body in Hb.
  destruct (String.eqb_spec content_type Http.ContentType.Xml) as [Hxml | Hxml].
  - destruct (truthy params).
    + destruct (xml_from_dict params); cbn [Py.bind] in Hb; [|discriminate].
      injection Hb as <-. reflexivity.
    + injection Hb as <-. reflexivity.
  - destruct (is_None files) eqn:Ef.
    + apply is_None_spec in Ef. subst files. injection Hb as <-.
      destruct Hshape as [? | [? | Hp]]; try contradiction.
      destruct params; try reflexivity. exfalso. exact (Hp _ eq_refl).
    + injection Hb as <-. reflexivity.
Qed.

(** X14. For a client that is its own strategy, with the environment of
    its configuration (what the configuration gives by default): [get] and
    [delete] give the session one request, a GET or a DELETE of the
    resolved URL whose data is the empty string and which has no files,
    and their result is what the answer to that request makes it: the
    error of an error status, the empty mapping or the decoded XML, or
    the exception of the session, wrapped or not. *)
Theorem get_delete_send_empty_body (self : Http.t) (path : str)
    (headers : gmap string value)
    (send : requests.Request -> outcome py_exception requests.Response) :
  Http.__headers self Http.ContentType.Xml None = Return headers ->
  Http.self_environment self = Configuration.environment (Http.config self) ->
  Http.get self (Http.strategy self send) path
  = Notion.result_of_answer self Http.ContentType.Xml
      (send (Notion.sent_request self "GET" (Http.__full_path self path)
               headers (VStr "") VNone))
  /\ Http.delete self (Http.strategy self send) path
     = Notion.result_of_answer self Http.ContentType.Xml
         (send (Notion.sent_request self "DELETE" (Http.__full_path self path)
                  headers (VStr "") VNone)).
Proof.
  intros Hh _. unfold Http.get, Http.delete.
  split.
  - apply (make_request_own self send "GET" path Http.ContentType.Xml
             VNone VNone None headers (VStr "") (VStr "") VNone Hh);
      reflexivity.
  - apply (make_request_own self send "DELETE" path Http.ContentType.Xml
             VNone VNone None headers (VStr "") (VStr "") VNone Hh);
      reflexivity.
Qed.

(** X15. For a client that is its own strategy, with the environment of
    its configuration: [post_multipart] with files gives the session one
    request, a POST of the resolved URL whose data is the params and whose
    files are the files, with headers that have no Content-type (the
    multipart boundary is left to the session), and its result is what the
    answer to that request makes it. *)
Theorem post_multipart_request (self : Http.t) (path : str)
    (params files : value) (headers : gmap string value)
    (send : requests.Request -> outcome py_exception requests.Response) :
  Http.__headers self Http.ContentType.Multipart None = Return headers ->
  Http.self_environment self = Configuration.environment (Http.config self) ->
  files <> VNone ->
  headers !! "Content-type" = None
  /\ Http.post_multipart self (Http.strategy self send) path files params
     = Notion.result_of_answer self Http.ContentType.Multipart
         (send (Notion.sent_request self "POST" (Http.__full_path self path)
                  headers params files)).
Proof.
  intros Hh _ Hf. split.
  - unfold Http.__headers in Hh.
    destruct (Http.__authorization_header self); cbn [Py.bind] in Hh;
      [|discriminate].
    injection Hh as <-. cbn [default from_option id].
    rewrite lookup_union_r by apply lookup_empty.
    simplify_map_eq. reflexivity.
  - unfold Http.post_multipart.
    apply (make_request_own self send "POST" path
             Http.ContentType.Multipart params files None headers
             (VTuple [params; files]) params files Hh); [| reflexivity].
    unfold Http.__request_body.
    destruct (is_None files) eqn:Ef; [|reflexivity].
    apply is_None_spec in Ef. contradiction.
Qed.

End Sending.

(** ** BusinessDetails, again *)

Section More_business_details.
Context `{BusinessDetails.Imports}.

(** X16. The constructor of [BusinessDetails] returns if and only if the
    attributes are a mapping and both the initialiser of the base class
    and the constructor of [AddressDetails], for the value of ["address"]
    or the empty mapping, return. *)
Theorem business_details_returns_iff (attributes : value) :
  (exists self, BusinessDetails.__init__ attributes = Return self)
  <-> (exists d,
         attributes = VDict d
         /\ (exists base,
               BusinessDetails.AttributeGetter__init__ ∅ attributes = Return base)
         /\ (exists address_details,
               BusinessDetails.AddressDetails (default (VDict ∅) (d !! "address"))
               = Return address_details)).
Proof.
  unfold BusinessDetails.__init__, BusinessDetails.get. split.
  - intros [self Hself].
    destruct (BusinessDetails.AttributeGetter__init__ ∅ attributes)
      as [base | e]; cbn [Py.bind] in Hself; [|discriminate].
    destruct attributes as [| | | | | d | |]; cbn [Py.bind] in Hself;
      try discriminate.
    exists d. split; [reflexivity|]. split; [exists base; reflexivity|].
    destruct (d !! "address"); cbn [default from_option id];
      match type of Hself with
      | context [BusinessDetails.AddressDetails ?a] =>
          destruct (BusinessDetails.AddressDetails a) as [ad | e];
          cbn [Py.bind] in Hself; [exists ad; reflexivity | discriminate]
      end.
  - intros (d & -> & [base Hbase] & [ad Had]).
    rewrite Hbase. cbn [Py.bind].
    destruct (d !! "address"); cbn [default from_option id] in Had;
      rewrite Had; eexists; reflexivity.
Qed.

(** X17. When the constructor of [BusinessDetails] fails, it fails with
    the first failure in the order of its steps: the exception of the base
    initialiser; or, the initialiser having returned, an AttributeError
    for attributes that are not a mapping, with no [AddressDetails] built;
    or, for a mapping, the exception of the [AddressDetails] constructor. *)
Theorem business_details_first_failure (attributes : value) :
  (forall e,
     BusinessDetails.AttributeGetter__init__ ∅ attributes = Raise e ->
     BusinessDetails.__init__ attributes = Raise e)
  /\ (forall base,
        BusinessDetails.AttributeGetter__init__ ∅ attributes = Return base ->
        (forall d, attributes <> VDict d) ->
        exists e, BusinessDetails.__init__ attributes = Raise e
                  /\ isinstance e "AttributeError" = true)
  /\ (forall base d e,
        BusinessDetails.AttributeGetter__init__ ∅ attributes = Return base ->
        attributes = VDict d ->
        BusinessDetails.AddressDetails (default (VDict ∅) (d !! "address"))
        = Raise e ->
        BusinessDetails.__init__ attributes = Raise e).
Proof.
  unfold BusinessDetails.__init__, BusinessDetails.get.
  split; [|split].
  - intros e ->. reflexivity.
  - intros base -> Hnot. cbn [Py.bind].
    destruct attributes as [| | | | | d | |];
      try (eexists; split; reflexivity).
    exfalso. exact (Hnot d eq_refl).
  - intros base d e -> -> Had. cbn [Py.bind].
    destruct (d !! "address"); cbn [default from_option id] in Had;
      rewrite Had; reflexivity.
Qed.

End More_business_details.

(** ** The further properties on the sample gateway *)

Lemma headers_override_wins_witness :
  let self := Sample.client Sample.config_keys in
  let overrides : gmap string value :=
    {[ "Authorization" := VStr "Bearer other" ]} in
  More_samples.headers_with self Http.ContentType.Xml overrides !! "Authorization"
  = Some (VStr "Bearer other").
Proof.
  intros self overrides.
  apply (@headers_override_wins Sample.imports self Http.ContentType.Xml
           overrides
           (More_samples.headers_with self Http.ContentType.Xml overrides)
           "Authorization" (VStr "Bearer other")).
  - reflexivity.
  - vm_compute. reflexivity.
Defined.

Lemma headers_defaults_witness :
  let self := Sample.client Sample.config_keys in
  Sample.headers_of self Http.ContentType.Xml !! "Content-type"
  = Some (VStr "application/xml")
  /\ Sample.headers_of self Http.ContentType.Multipart !! "Content-type" = None
  /\ Sample.headers_of self Http.ContentType.Json !! "Authorization"
     = Some (VBytes "Basic cHVibGljX2tleTpwcml2YXRlX2tleQ==").
Proof.
  intros self. split; [|split].
  - apply (@headers_defaults Sample.imports self Http.ContentType.Xml None
             (Sample.headers_of self Http.ContentType.Xml)
             "Basic cHVibGljX2tleTpwcml2YXRlX2tleQ==" "Content-type");
      reflexivity.
  - apply (@headers_defaults Sample.imports self Http.ContentType.Multipart None
             (Sample.headers_of self Http.ContentType.Multipart)
             "Basic cHVibGljX2tleTpwcml2YXRlX2tleQ==" "Content-type");
      reflexivity.
  - apply (@headers_defaults Sample.imports self Http.ContentType.Json None
             (Sample.headers_of self Http.ContentType.Json)
             "Basic cHVibGljX2tleTpwcml2YXRlX2tleQ==" "Authorization");
      reflexivity.
Defined.

Lemma unusable_credentials_fail_every_request_witness :
  let self := Sample.client More_samples.config_accented in
  exists e,
    (isinstance e "AttributeError" = true
     \/ isinstance e "UnicodeEncodeError" = true)
    /\ forall st verb path content_type params files overrides,
         @Http._make_request Sample.imports self st verb path content_type
           params files overrides
         = Raise (Python e).
Proof.
  intros self.
  apply (@unusable_credentials_fail_every_request Sample.imports self).
  reflexivity.
Defined.

Lemma base_exception_not_caught_witness :
  let self := Sample.client (Sample.with_wrap true Sample.config_keys) in
  @Http.get Sample.imports self
    (Http.strategy self (Sample.fail Sample.keyboard_interrupt)) "/merchants/m"
  = Raise (Python Sample.keyboard_interrupt).
Proof.
  intros self.
  apply (@base_exception_not_caught Sample.imports self
           (Http.strategy self (Sample.fail Sample.keyboard_interrupt))
           "GET" "/merchants/m" Http.ContentType.Xml VNone VNone None
           (Sample.headers_of self Http.ContentType.Xml)
           (Sample.body_of Http.ContentType.Xml VNone VNone)
           Sample.keyboard_interrupt);
    reflexivity.
Defined.

Lemma returning_handler_unbound_status_witness :
  let self := Sample.client (Sample.with_wrap true Sample.config_keys) in
  exists unbound,
    @Http.get Sample.imports self
      (Sample.lenient_strategy Sample.read_timeout) "/merchants/m"
    = Raise (Python unbound)
    /\ isinstance unbound "UnboundLocalError" = true.
Proof.
  intros self.
  apply (@returning_handler_unbound_status Sample.imports self
           (Sample.lenient_strategy Sample.read_timeout)
           "GET" "/merchants/m" Http.ContentType.Xml VNone VNone None
           (Sample.headers_of self Http.ContentType.Xml)
           (Sample.body_of Http.ContentType.Xml VNone VNone)
           Sample.read_timeout);
    reflexivity.
Defined.

Lemma raise_exception_from_status_edges_witness :
  Http.raise_exception_from_status 404 (Some "gone")
  = Http.raise_exception_from_status 404 None
  /\ Http.raise_exception_from_status 200 None
     = Raise (Braintree (UnexpectedError (Message "Unexpected HTTP_RESPONSE 200"))).
Proof.
  split.
  - destruct (raise_exception_from_status_edges 404 (Some "gone")) as [Hm _].
    apply Hm. discriminate.
  - destruct (raise_exception_from_status_edges 200 None) as [_ Hs].
    apply Hs. left. reflexivity.
Defined.

Lemma raise_exception_from_status_inj_witness : 409 = 409.
Proof.
  apply (raise_exception_from_status_inj 409 409 None (Some "conflict")).
  reflexivity.
Defined.

Lemma own_strategy_request_witness :
  let self := Sample.client Sample.config_keys in
  let url := "https://api.sandbox.braintreegateway.com:443/merchants/m/customers" in
  let params := VDict {[ "customer" := VDict ∅ ]} in
  @Http.post Sample.imports self
    (Http.strategy self (Sample.respond 201 "<customer/>"))
    "/merchants/m/customers" params
  = @Http.post Sample.imports self
      (Http.strategy self
         (More_samples.picky_session "POST" url 201 "<customer/>"))
      "/merchants/m/customers" params.
Proof.
  intros self url params.
  apply (@own_strategy_request Sample.imports self
           "POST" "/merchants/m/customers" Http.ContentType.Xml params VNone None
           (Sample.headers_of self Http.ContentType.Xml)
           (Sample.body_of Http.ContentType.Xml params VNone)).
  - reflexivity.
  - reflexivity.
  - left. reflexivity.
  - reflexivity.
Defined.

Lemma get_delete_send_empty_body_witness :
  let self := Sample.client Sample.config_keys in
  @Http.get Sample.imports self
    (Http.strategy self (Sample.respond 200 "<merchant/>")) "/merchants/m"
  = Return (VDict {[ "xml" := VBytes "<merchant/>" ]})
  /\ @Http.delete Sample.imports self
       (Http.strategy self (Sample.respond 204 "")) "/merchants/m"
     = Return (VDict ∅).
Proof.
  intros self. split.
  - destruct (@get_delete_send_empty_body Sample.imports self "/merchants/m"
                (Sample.headers_of self Http.ContentType.Xml)
                (Sample.respond 200 "<merchant/>") eq_refl eq_refl)
      as [Hget _].
    exact (eq_trans Hget eq_refl).
  - destruct (@get_delete_send_empty_body Sample.imports self "/merchants/m"
                (Sample.headers_of self Http.ContentType.Xml)
                (Sample.respond 204 "") eq_refl eq_refl)
      as [_ Hdelete].
    exact (eq_trans Hdelete eq_refl).
Defined.

Lemma post_multipart_request_witness :
  let self := Sample.client Sample.config_keys in
  let url := "https://api.sandbox.braintreegateway.com:443/merchants/m/documents" in
  let files := VDict {[ "file" := VBytes "data" ]} in
  Sample.headers_of self Http.ContentType.Multipart !! "Content-type" = None
  /\ @Http.post_multipart Sample.imports self
       (Http.strategy self
          (More_samples.picky_session "POST" url 201 "<document/>"))
       "/merchants/m/documents" files (VDict ∅)
     = Return (VDict {[ "xml" := VBytes "<document/>" ]}).
Proof.
  intros self url files.
  destruct (@post_multipart_request Sample.imports self "/merchants/m/documents"
              (VDict ∅) files
              (Sample.headers_of self Http.ContentType.Multipart)
              (More_samples.picky_session "POST" url 201 "<document/>")
              eq_refl eq_refl) as [Hheader Hsame].
  { discriminate. }
  split; [exact Hheader | exact (eq_trans Hsame eq_refl)].
Defined.

Lemma business_details_returns_iff_witness :
  (exists self,
     @BusinessDetails.__init__ Sample.business_imports
       (VDict {[ "legal_name" := VStr "Acme" ]}) = Return self)
  /\ ~ (exists self,
          @BusinessDetails.__init__ Sample.business_imports
            (VDict {[ "address" := VStr "1 Main St" ]}) = Return self).
Proof.
  split.
  - apply (@business_details_returns_iff Sample.business_imports).
    eexists. split; [reflexivity|].
    split; eexists; vm_compute; reflexivity.
  - intros Hreturns.
    apply (@business_details_returns_iff Sample.business_imports) in Hreturns.
    destruct Hreturns as (d & Hd & _ & [ad Had]).
    injection Hd as <-. vm_compute in Had. discriminate.
Defined.

Lemma business_details_first_failure_witness :
  exists e,
    @BusinessDetails.__init__ Sample.business_imports VNone = Raise e
    /\ isinstance e "AttributeError" = true.
Proof.
  destruct (@business_details_first_failure Sample.business_imports VNone)
    as (_ & Hnot_mapping & _).
  apply (Hnot_mapping ∅); [reflexivity | discriminate].
Defined.

(** ** The scheme of the Authorization header *)

Section Scheme.
Context `{Imports}.

(** X18. The first word of the Authorization value tells the scheme, and
    the scheme is decided by the two tests of the configuration alone: the
    value starts with "Bearer " exactly when there are no client
    credentials and there is an access token, and with "Basic " in every
    other case, whatever the credentials are. *)
Theorem authorization_scheme_word (self : Http.t) (v : bytes) :
  Http.__authorization_header self = Return v ->
  startswith v "Bearer "
  = negb (Configuration.has_client_credentials (Http.config self))
    && Configuration.has_access_token (Http.config self)
  /\ startswith v "Basic "
     = Configuration.has_client_credentials (Http.config self)
       || negb (Configuration.has_access_token (Http.config self)).
Proof.
  unfold Http.__authorization_header.
  destruct (Configuration.has_client_credentials (Http.config self));
    [|destruct (Configuration.has_access_token (Http.config self))];
    repeat match goal with
           | |- context [Http.encode_attr ?c] =>
               destruct (Http.encode_attr c); cbn [Py.bind]
           end;
    intros Hv; try discriminate; injection Hv as <-;
    rewrite ?startswith_app; split; reflexivity.
Qed.

End Scheme.

Lemma authorization_scheme_word_witness :
  startswith "Bearer access_token" "Bearer " = true
  /\ startswith "Bearer access_token" "Basic " = false.
Proof.
  exact (@authorization_scheme_word Sample.imports
           (Sample.client
              (Sample.with_access_token "access_token" Sample.config_keys))
           "Bearer access_token" eq_refl).
Defined.
